(** * Crew orchestration service: a shallow embedding of
    [src/services/crewAIService.ts] and the properties checked against it.

    Strings are JavaScript strings, that is sequences of UTF-16 code units;
    the [agentMemory] and [userContext] maps and the context objects are
    finite maps; the asynchronous methods are run sequentially in a small
    state-and-exception monad whose state also carries the outside world
    (the requests sent to the completion endpoint and the clock). *)

From Stdlib Require Import ZArith NArith QArith List String Ascii Lia DecimalString.
From stdpp Require Import gmap list.

Open Scope bool_scope.

(** ** JavaScript strings and arrays *)

Module JS.

Abbreviation jsstring := (list N).

(** An ASCII literal as code units. *)
Definition lit (s : string) : jsstring :=
  map N_of_ascii (list_ascii_of_string s).
Arguments lit s%_string.

Definition newline : N := 10.
Definition hyphen : N := 45.
Definition bullet : N := 8226.       (* U+2022 *)
Definition asterisk : N := 42.
Definition dquote : N := 34.
Definition degree : N := 176.        (* U+00B0 *)
Definition underscore : N := 95.
Definition space : N := 32.

(** WhiteSpace and LineTerminator code units: what [String.prototype.trim]
    removes and what [\s] matches. *)
Definition is_ws (c : N) : bool :=
  ((9 <=? c) && (c <=? 13) || (c =? 32) || (c =? 160) || (c =? 5760)
   || (8192 <=? c) && (c <=? 8202) || (c =? 8232) || (c =? 8233)
   || (c =? 8239) || (c =? 8287) || (c =? 12288) || (c =? 65279))%N.

Fixpoint drop_ws (s : jsstring) : jsstring :=
  match s with
  | c :: r => if is_ws c then drop_ws r else s
  | [] => []
  end.

Definition trim (s : jsstring) : jsstring :=
  rev (drop_ws (rev (drop_ws s))).

Fixpoint str_eqb (a b : jsstring) : bool :=
  match a, b with
  | [], [] => true
  | x :: a', y :: b' => (x =? y)%N && str_eqb a' b'
  | _, _ => false
  end.

Definition is_empty (s : jsstring) : bool :=
  match s with [] => true | _ => false end.

Fixpoint startsWith (p s : jsstring) : bool :=
  match p, s with
  | [], _ => true
  | x :: p', y :: s' => (x =? y)%N && startsWith p' s'
  | _ :: _, [] => false
  end.

Fixpoint includes (p s : jsstring) : bool :=
  startsWith p s ||
  match s with
  | [] => false
  | _ :: r => includes p r
  end.

(** [s.split(c)] for a one-character separator. *)
Fixpoint split (c : N) (s : jsstring) : list jsstring :=
  match s with
  | [] => [[]]
  | x :: r =>
      if (x =? c)%N then [] :: split c r
      else match split c r with
           | l :: ls => (x :: l) :: ls
           | [] => [[x]]
           end
  end.

Fixpoint join (sep : jsstring) (parts : list jsstring) : jsstring :=
  match parts with
  | [] => []
  | [p] => p
  | p :: rest => p ++ sep ++ join sep rest
  end.

(** [s.replace(c, by)] with a one-character string pattern: the first
    occurrence only. *)
Fixpoint replace_first (c : N) (by_ : jsstring) (s : jsstring) : jsstring :=
  match s with
  | [] => []
  | x :: r => if (x =? c)%N then by_ ++ r else x :: replace_first c by_ r
  end.

(** [toUpperCase] on one code unit; only ASCII letters are cased here, the
    service applies it to the first letter of two ASCII literals. *)
Definition upper (c : N) : N :=
  if ((97 <=? c) && (c <=? 122))%N then (c - 32)%N else c.

Definition capitalize (s : jsstring) : jsstring :=
  match s with
  | [] => []
  | c :: r => upper c :: r
  end.

(** Decimal rendering of an array index or a small count. *)
Definition show_nat (n : nat) : jsstring :=
  lit (NilZero.string_of_uint (Nat.to_uint n)).

Section Arrays.
Context {A : Type}.

(** [Array.prototype.slice(start, end)]: negative positions count from
    the end, everything is clamped to the array. *)
Definition clamp_index (len i : Z) : Z :=
  if (i <? 0)%Z then Z.max (len + i) 0 else Z.min i len.

Definition slice (start stop : Z) (l : list A) : list A :=
  let len := Z.of_nat (length l) in
  let k := clamp_index len start in
  let e := clamp_index len stop in
  take (Z.to_nat (e - k)) (drop (Z.to_nat k) l).

Definition slice_from (start : Z) (l : list A) : list A :=
  slice start (Z.of_nat (length l)) l.

(** [arr.splice(0, n)] as the array it leaves behind. *)
Definition splice_front (n : Z) (l : list A) : list A :=
  drop (Z.to_nat (Z.min (Z.max n 0) (Z.of_nat (length l)))) l.

Definition flatMap {B : Type} (f : A -> list B) (l : list A) : list B :=
  concat (map f l).
End Arrays.

(** [arr.indexOf(x)] on an array of strings, [-1] when absent. *)
Fixpoint indexOf (x : jsstring) (l : list jsstring) : Z :=
  match l with
  | [] => (-1)%Z
  | y :: r =>
      if str_eqb y x then 0%Z
      else let i := indexOf x r in
           if (i <? 0)%Z then (-1)%Z else (i + 1)%Z
  end.

End JS.
Import JS.

(** ** The host: numbers, the completion endpoint and the clock

    Context objects carry JavaScript numbers, whose truthiness and rendering
    belong to the engine ([Numbers]). The world ([Host]) answers the
    requests and tells the time: [fetch n prompt] is what the [n]-th request
    to the completion endpoint comes back with when it carries [prompt];
    [clock n] is the [n]-th reading of the system clock in milliseconds. *)

Inductive Reply :=
| Rejected                                   (* fetch itself fails *)
| NotOk (status : N) (errorText : jsstring)  (* response.ok is false *)
| BadBody                                    (* no JSON, or no choices *)
| Choice (content : option jsstring).        (* choices[0]?.message?.content *)

Class Numbers := {
  number : Type;
  number_truthy : number -> bool;
  number_show : number -> jsstring;
  number_locale : number -> jsstring
}.

Class Host := {
  fetch : nat -> jsstring -> Reply;
  clock : nat -> Z
}.

(** ** Data model *)

Inductive Outcome (A : Type) :=
| Ret (a : A)
| Throw.
Arguments Ret {A} a.
Arguments Throw {A}.

Inductive GoalType := sleep_tracking | daily_steps.

Record AgentConfig := {
  role : jsstring;
  goal : jsstring;
  backstory : jsstring;
  tools : list jsstring;
  agent_memory : bool;
  agent_verbose : bool
}.

Record Task := {
  description : jsstring;
  task_agent : jsstring;
  expected_output : jsstring
}.

Inductive Process := sequential | hierarchical.

Record CrewConfig := {
  agents : gmap (list N) AgentConfig;
  tasks : list Task;
  process : Process;
  crew_memory : bool;
  crew_verbose : bool
}.

(** Confidence scores are the literals of the source, kept as decimal
    fractions. *)
Record AgentResponse := {
  agent : jsstring;
  response : jsstring;
  confidence : Q;
  actionItems : list jsstring;
  insights : list jsstring;
  recommendations : list jsstring;
  nextSteps : list jsstring
}.

Record CrewExecution := {
  results : list AgentResponse;
  finalOutput : jsstring;
  executionTime : Z;
  success : bool
}.

Section Engine.
Context {nums : Numbers} {host : Host}.

(** Values found in a context object. *)
Inductive JSValue :=
| JUndefined
| JNull
| JBool (b : bool)
| JNumber (x : number)
| JString (s : jsstring)
| JArray (xs : list jsstring).

(** A context object: its own properties. *)
Abbreviation Context := (gmap (list N) JSValue).

Definition get (ctx : Context) (key : jsstring) : JSValue :=
  default JUndefined (ctx !! key).

Definition truthy (v : JSValue) : bool :=
  match v with
  | JUndefined | JNull => false
  | JBool b => b
  | JNumber x => number_truthy x
  | JString s => negb (is_empty s)
  | JArray _ => true
  end.

(** String conversion of an interpolated value. *)
Definition to_string (v : JSValue) : jsstring :=
  match v with
  | JUndefined => lit "undefined"
  | JNull => lit "null"
  | JBool true => lit "true"
  | JBool false => lit "false"
  | JNumber x => number_show x
  | JString s => s
  | JArray xs => join (lit ",") xs
  end.

(** [${v || d}] where [d] is a literal, given by its rendering. *)
Definition interp_or (v : JSValue) (d : jsstring) : jsstring :=
  if truthy v then to_string v else d.

(** [v?.toLocaleString()] *)
Definition toLocaleString (v : JSValue) : JSValue :=
  match v with
  | JUndefined | JNull => JUndefined
  | JNumber x => JString (number_locale x)
  | JArray xs => JString (join (lit ",") xs)
  | other => JString (to_string other)
  end.

(** [v?.join(sep)]: only arrays have [join]. *)
Definition join_opt (v : JSValue) (sep : jsstring) : Outcome JSValue :=
  match v with
  | JUndefined | JNull => Ret JUndefined
  | JArray xs => Ret (JString (join sep xs))
  | _ => Throw
  end.

Record MemoryEntry := {
  query : jsstring;
  mem_response : jsstring;
  timestamp : Z;
  mem_context : Context
}.

(** The service instance together with the world it talks to: [sent] logs
    the prompts posted to the completion endpoint, [clockReads] counts the
    readings of the clock. *)
Record State := {
  apiKey : jsstring;
  agentMemory : gmap (list N) (list MemoryEntry);
  userContext : gmap (list N) Context;
  sent : list jsstring;
  clockReads : nat
}.

Definition M (A : Type) : Type := State -> Outcome A * State.

Definition ret {A} (a : A) : M A := fun s => (Ret a, s).

Definition throw {A} : M A := fun s => (Throw, s).

Definition bind {A B} (m : M A) (k : A -> M B) : M B :=
  fun s =>
    match m s with
    | (Ret a, s') => k a s'
    | (Throw, s') => (Throw, s')
    end.

(** [try { body } catch { handler }]: what the body did to the state before
    it threw stays done. *)
Definition try_catch {A} (body handler : M A) : M A :=
  fun s =>
    match body s with
    | (Ret a, s') => (Ret a, s')
    | (Throw, s') => handler s'
    end.

Definition lift {A} (o : Outcome A) : M A := fun s => (o, s).

Definition gets {A} (f : State -> A) : M A := fun s => (Ret (f s), s).

Definition modify (f : State -> State) : M unit := fun s => (Ret tt, f s).

Notation "'let*' x ':=' m 'in' k" := (bind m (fun x => k))
  (at level 10, x binder, m at level 100, k at level 200, only parsing).

Definition unlines (ls : list jsstring) : jsstring := join [newline] ls.

(** *** Configuration *)

Definition placeholderKey : jsstring := lit "your_openai_api_key_here".

Definition isConfigured (key : jsstring) : bool :=
  negb (is_empty key) && negb (str_eqb key placeholderKey)
  && (20 <? length key)%nat.

Definition mkAgent (r g b : jsstring) (ts : list jsstring) : AgentConfig :=
  {| role := r; goal := g; backstory := b; tools := ts;
     agent_memory := true; agent_verbose := true |}.

Definition sleepAnalyst : AgentConfig :=
  mkAgent (lit "Sleep Quality Analyst")
    (lit "Analyze sleep patterns, quality metrics, and provide data-driven insights for sleep optimization")
    (lit "You are a certified sleep specialist with expertise in circadian rhythm science, sleep hygiene, and sleep disorder recognition. You analyze sleep data to identify patterns, quality issues, and optimization opportunities.")
    [lit "sleep_data_analysis"; lit "circadian_rhythm_assessment"; lit "sleep_quality_scoring"].

Definition sleepCoach : AgentConfig :=
  mkAgent (lit "Sleep Optimization Coach")
    (lit "Provide personalized sleep improvement recommendations and behavioral coaching for better sleep habits")
    (lit "You are a behavioral sleep coach specializing in sleep hygiene, bedtime routines, and lifestyle modifications for improved sleep. You help users build sustainable sleep habits through evidence-based interventions.")
    [lit "habit_formation"; lit "environmental_optimization"; lit "routine_planning"].

Definition circadianSpecialist : AgentConfig :=
  mkAgent (lit "Circadian Rhythm Specialist")
    (lit "Optimize sleep-wake cycles, light exposure, and timing recommendations for better circadian health")
    (lit "You are a chronobiology expert who understands how light, timing, and lifestyle factors affect circadian rhythms. You provide precise timing recommendations for sleep, meals, exercise, and light exposure.")
    [lit "light_therapy_planning"; lit "meal_timing_optimization"; lit "chronotype_assessment"].

Definition activityAnalyst : AgentConfig :=
  mkAgent (lit "Physical Activity Data Analyst")
    (lit "Analyze step patterns, activity levels, and movement behaviors to identify optimization opportunities")
    (lit "You are a kinesiologist and movement specialist who analyzes daily activity patterns. You understand how step counts relate to overall health, weight management, and cardiovascular fitness.")
    [lit "activity_pattern_analysis"; lit "movement_behavior_assessment"; lit "health_impact_calculation"].

Definition movementCoach : AgentConfig :=
  mkAgent (lit "Movement and Walking Coach")
    (lit "Provide personalized strategies to increase daily steps and build sustainable movement habits")
    (lit "You are a certified exercise physiologist specializing in lifestyle physical activity. You help people integrate more movement into their daily routines through practical, achievable strategies.")
    [lit "habit_integration"; lit "route_planning"; lit "motivation_strategies"].

Definition wellnessStrategist : AgentConfig :=
  mkAgent (lit "Holistic Wellness Strategist")
    (lit "Connect daily movement with overall health goals and provide comprehensive wellness recommendations")
    (lit "You are a wellness expert who understands how daily movement impacts sleep, stress, energy, weight management, and overall health. You create integrated wellness strategies.")
    [lit "wellness_integration"; lit "goal_alignment"; lit "lifestyle_optimization"].

Definition sleepAnalystTask : Task :=
  {| description := lit "Analyze current sleep data and identify patterns, quality issues, and areas for improvement";
     task_agent := lit "sleep_analyst";
     expected_output := lit "Detailed sleep analysis with quality scores, pattern identification, and specific improvement areas" |}.

Definition sleepCoachTask : Task :=
  {| description := lit "Generate personalized sleep optimization recommendations based on analysis";
     task_agent := lit "sleep_coach";
     expected_output := lit "Actionable sleep improvement plan with specific behavioral modifications and habit changes" |}.

Definition circadianSpecialistTask : Task :=
  {| description := lit "Provide circadian rhythm optimization strategies and timing recommendations";
     task_agent := lit "circadian_specialist";
     expected_output := lit "Precise timing recommendations for sleep, light exposure, meals, and activities to optimize circadian health" |}.

Definition activityAnalystTask : Task :=
  {| description := lit "Analyze current step patterns, identify barriers to movement, and assess progress toward goals";
     task_agent := lit "activity_analyst";
     expected_output := lit "Comprehensive activity analysis with pattern identification, barrier assessment, and progress evaluation" |}.

Definition movementCoachTask : Task :=
  {| description := lit "Generate personalized movement strategies and step-increasing recommendations";
     task_agent := lit "movement_coach";
     expected_output := lit "Practical movement plan with specific strategies to increase daily steps and build walking habits" |}.

Definition wellnessStrategistTask : Task :=
  {| description := lit "Integrate movement recommendations with overall wellness goals and lifestyle factors";
     task_agent := lit "wellness_strategist";
     expected_output := lit "Holistic wellness strategy connecting daily movement with sleep, nutrition, stress management, and other health goals" |}.

Definition getSleepTrackingCrew : CrewConfig :=
  {| agents :=
      (<[ lit "sleep_analyst" := sleepAnalyst ]>
      (<[ lit "sleep_coach" := sleepCoach ]>
      (<[ lit "circadian_specialist" := circadianSpecialist ]>
       ∅)));
     tasks := [ sleepAnalystTask; sleepCoachTask; circadianSpecialistTask ];
     process := sequential;
     crew_memory := true;
     crew_verbose := true |}.

Definition getStepsTrackingCrew : CrewConfig :=
  {| agents :=
      (<[ lit "activity_analyst" := activityAnalyst ]>
      (<[ lit "movement_coach" := movementCoach ]>
      (<[ lit "wellness_strategist" := wellnessStrategist ]>
       ∅)));
     tasks := [ activityAnalystTask; movementCoachTask; wellnessStrategistTask ];
     process := sequential;
     crew_memory := true;
     crew_verbose := true |}.

Definition goalTypeName (g : GoalType) : jsstring :=
  match g with
  | sleep_tracking => lit "sleep_tracking"
  | daily_steps => lit "daily_steps"
  end.

(** The crew selected by [executeCrew]. *)
Definition crewFor (g : GoalType) : CrewConfig :=
  match g with
  | sleep_tracking => getSleepTrackingCrew
  | daily_steps => getStepsTrackingCrew
  end.

(** *** Prompts *)

(** [formatContextForAgent]: the role is matched against lower-case
    substrings. Reading [preferredWalkingTimes?.join] throws when the
    property is neither nullish nor an array. *)
Definition formatContextForAgent (ctx : Context) (agentRole : jsstring)
  : Outcome jsstring :=
  if includes (lit "sleep") agentRole then
    Ret (unlines
      [ [];
        lit "Sleep Profile:";
        lit "- Target sleep: " ++ interp_or (get ctx (lit "targetSleepHours")) (lit "8") ++ lit " hours";
        lit "- Bedtime: " ++ interp_or (get ctx (lit "targetBedtime")) (lit "Not set");
        lit "- Wake time: " ++ interp_or (get ctx (lit "targetWakeTime")) (lit "Not set");
        lit "- Last night's sleep: " ++ interp_or (get ctx (lit "lastNightSleep")) (lit "Not logged") ++ lit " hours";
        lit "- Sleep score: " ++ interp_or (get ctx (lit "sleepScore")) (lit "Not available");
        lit "- Sleep efficiency: " ++ interp_or (get ctx (lit "sleepEfficiency")) (lit "Not available") ++ lit "%";
        lit "- Wake-ups: " ++ interp_or (get ctx (lit "wakeUps")) (lit "Not tracked");
        lit "- Room temperature: " ++ interp_or (get ctx (lit "roomTemperature")) (lit "Not set") ++ [degree] ++ lit "F";
        lit "- Tracking method: " ++ interp_or (get ctx (lit "trackingMethod")) (lit "Manual");
        lit "- Sleep streak: " ++ interp_or (get ctx (lit "sleepStreak")) (lit "0") ++ lit " days";
        lit "- Weekly average: " ++ interp_or (get ctx (lit "weeklyAverage")) (lit "0") ++ lit " hours";
        lit "      " ])
  else if includes (lit "activity") agentRole
          || includes (lit "movement") agentRole
          || includes (lit "wellness") agentRole then
    match join_opt (get ctx (lit "preferredWalkingTimes")) (lit ", ") with
    | Throw => Throw
    | Ret walkingTimes =>
      Ret (unlines
        [ [];
          lit "Steps Profile:";
          lit "- Daily target: " ++ interp_or (toLocaleString (get ctx (lit "dailyStepTarget"))) (lit "Not set") ++ lit " steps";
          lit "- Current steps today: " ++ interp_or (toLocaleString (get ctx (lit "currentSteps"))) (lit "0");
          lit "- Remaining steps: " ++ interp_or (toLocaleString (get ctx (lit "remainingSteps"))) (lit "Unknown");
          lit "- Distance today: " ++ interp_or (get ctx (lit "distance")) (lit "0") ++ lit "km";
          lit "- Calories burned: " ++ interp_or (get ctx (lit "caloriesBurned")) (lit "0");
          lit "- Tracking method: " ++ interp_or (get ctx (lit "trackingMethod")) (lit "Manual");
          lit "- Step streak: " ++ interp_or (get ctx (lit "stepStreak")) (lit "0") ++ lit " days";
          lit "- Weekly average: " ++ interp_or (toLocaleString (get ctx (lit "weeklyAverage"))) (lit "0") ++ lit " steps";
          lit "- Baseline average: " ++ interp_or (toLocaleString (get ctx (lit "baselineAverage"))) (lit "Not set") ++ lit " steps";
          lit "- Stride length: " ++ interp_or (get ctx (lit "strideLength")) (lit "Not set") ++ lit "cm";
          lit "- Preferred walking times: " ++ interp_or walkingTimes (lit "Not set");
          lit "- Weather adaptive: " ++ (if truthy (get ctx (lit "weatherAdaptive")) then lit "Yes" else lit "No");
          lit "- Route discovery: " ++ (if truthy (get ctx (lit "routeDiscovery")) then lit "Enabled" else lit "Disabled");
          lit "      " ])
    end
  else Ret (lit "Context not available for this agent type.").

Definition firstAgentMarker : jsstring :=
  lit "None - you are the first agent in this crew.".

(** [previousContext || 'None - ...'] *)
Definition previousOutputs (previousContext : jsstring) : jsstring :=
  if is_empty previousContext then firstAgentMarker else previousContext.

Definition memoryLine (m : MemoryEntry) : jsstring :=
  lit "Q: " ++ query m ++ [newline] ++ lit "A: " ++ mem_response m.

Definition memoryContext (agentMemory : list MemoryEntry) : jsstring :=
  if (0 <? length agentMemory)%nat then
    [newline; newline] ++ lit "Previous interactions with this user:" ++ [newline]
    ++ join [newline; newline] (map memoryLine (slice_from (-3) agentMemory))
  else [].

(** The template of [createAgentPrompt], with the interpolated context
    block, section of previous outputs and memory excerpt as arguments. *)
Definition agentPromptText (agent : AgentConfig) (task : Task)
    (userQuery contextText previousSection memoryContext : jsstring)
  : jsstring :=
  unlines
    [ lit "# Agent Role: " ++ role agent;
      [];
      lit "## Agent Profile";
      lit "**Goal**: " ++ goal agent;
      lit "**Backstory**: " ++ backstory agent;
      lit "**Available Tools**: " ++ join (lit ", ") (tools agent);
      [];
      lit "## Current Task";
      description task;
      [];
      lit "## User Context";
      contextText;
      [];
      lit "## Previous Agent Outputs";
      previousSection;
      [];
      lit "## User Query";
      [dquote] ++ userQuery ++ [dquote];
      [];
      memoryContext;
      [];
      lit "## Instructions";
      lit "As the " ++ role agent ++ lit ", provide your specialized analysis and recommendations. Focus on your specific expertise area while considering the user's context and previous agent insights. Provide actionable, specific advice that aligns with your role.";
      [];
      lit "Expected Output Format:";
      lit "- **Analysis**: Your specialized assessment";
      lit "- **Recommendations**: 3-5 specific actionable items";
      lit "- **Insights**: Key patterns or observations";
      lit "- **Next Steps**: Immediate actions the user can take";
      [];
      lit "Be conversational, supportive, and provide specific, measurable recommendations within your area of expertise." ].

Definition createAgentPrompt (agent : AgentConfig) (task : Task)
    (userQuery : jsstring) (ctx : Context) (previousContext : jsstring)
    (agentMemory : list MemoryEntry) : Outcome jsstring :=
  let memoryContext := memoryContext agentMemory in
  match formatContextForAgent ctx (role agent) with
  | Throw => Throw
  | Ret contextText =>
      Ret (agentPromptText agent task userQuery contextText
             (previousOutputs previousContext) memoryContext)
  end.

(** *** The completion call *)

Definition log_request (prompt : jsstring) (s : State) : State :=
  {| apiKey := apiKey s; agentMemory := agentMemory s;
     userContext := userContext s; sent := sent s ++ [prompt];
     clockReads := clockReads s |}.

(** [callOpenAI]: one request; anything but a decoded body with a choices
    array throws; a missing or empty content is the empty string. *)
Definition callOpenAI (prompt : jsstring) : M jsstring :=
  fun s =>
    match fetch (length (sent s)) prompt with
    | Choice content => (Ret (default [] content), log_request prompt s)
    | Rejected | NotOk _ _ | BadBody => (Throw, log_request prompt s)
    end.

(** [Date.now()] and [new Date()] *)
Definition now : M Z :=
  fun s =>
    (Ret (clock (clockReads s)),
     {| apiKey := apiKey s; agentMemory := agentMemory s;
        userContext := userContext s; sent := sent s;
        clockReads := S (clockReads s) |}).

(** *** Response parser *)

Definition nonblank (line : jsstring) : bool := negb (is_empty (trim line)).

(** [l.trim().startsWith('-') || l.trim().startsWith('•')] *)
Definition isBulleted (l : jsstring) : bool :=
  startsWith [hyphen] (trim l) || startsWith [bullet] (trim l).

(** [l.replace(/^[\-\•]\s*/, '').trim()]: the pattern is anchored at the
    start of the untrimmed line. *)
Definition stripMarker (l : jsstring) : jsstring :=
  trim (match l with
        | c :: r => if ((c =? hyphen) || (c =? bullet))%N then drop_ws r else l
        | [] => []
        end).

(** The bulleted lines among [lines.slice(i + 1, i + stop)], where [i] is
    the first position of [line]. *)
Definition bulletsAfter (lines : list jsstring) (line : jsstring) (stop : Z)
  : list jsstring :=
  let nextLines := slice (indexOf line lines + 1) (indexOf line lines + stop) lines in
  map stripMarker (List.filter isBulleted nextLines).

Record Sections := {
  sec_recommendations : list jsstring;
  sec_insights : list jsstring;
  sec_nextSteps : list jsstring
}.

(** The body of the [forEach] over the lines. *)
Definition scanLine (lines : list jsstring) (acc : Sections) (line : jsstring)
  : Sections :=
  let recommendations :=
    if includes (lit "**Recommendations**:") line || includes (lit "**Recommendation") line
    then bulletsAfter lines line 6 else sec_recommendations acc in
  let insights :=
    if includes (lit "**Insights**:") line || includes (lit "**Insight") line
    then bulletsAfter lines line 4 else sec_insights acc in
  let nextSteps :=
    if includes (lit "**Next Steps**:") line || includes (lit "**Action") line
    then bulletsAfter lines line 4 else sec_nextSteps acc in
  {| sec_recommendations := recommendations; sec_insights := insights;
     sec_nextSteps := nextSteps |}.

Definition responseLines (response : jsstring) : list jsstring :=
  List.filter nonblank (split newline response).

Definition parseAgentResponse (response agentRole : jsstring) : AgentResponse :=
  let lines := responseLines response in
  let found := fold_left (scanLine lines) lines
                 {| sec_recommendations := []; sec_insights := [];
                    sec_nextSteps := [] |} in
  let actionItems : list jsstring := [] in
  let actionItems :=
    if (length actionItems =? 0)%nat
    then slice 0 3 (sec_recommendations found) else actionItems in
  {| agent := agentRole;
     response := response;
     confidence := 0.85%Q;
     actionItems := actionItems;
     insights := sec_insights found;
     recommendations := sec_recommendations found;
     nextSteps := sec_nextSteps found |}.

(** *** Fallback engine *)

Definition getFallbackAgentResponse (agentRole userQuery : jsstring)
    (ctx : Context) : AgentResponse :=
  {| agent := agentRole;
     response :=
       lit "As your " ++ agentRole ++ lit ", I'm here to help with your query about "
       ++ [dquote] ++ userQuery ++ [dquote]
       ++ lit ". While I'm working with limited connectivity, I can still provide valuable guidance based on established best practices.";
     confidence := 0.6%Q;
     actionItems := [lit "Continue with current plan"; lit "Monitor progress"; lit "Stay consistent"];
     insights := [lit "Consistency is key to success"; lit "Small changes lead to big results"];
     recommendations := [lit "Maintain current routine"; lit "Track progress daily"; lit "Stay motivated"];
     nextSteps := [lit "Continue current approach"; lit "Monitor results"; lit "Adjust as needed"] |}.

Definition getFallbackResponses (goalType : GoalType) (userQuery : jsstring)
    (ctx : Context) : list AgentResponse :=
  match goalType with
  | sleep_tracking =>
    [ {| agent := lit "Sleep Quality Analyst";
         response :=
           lit "Based on your sleep data, I can see you're targeting "
           ++ interp_or (get ctx (lit "targetSleepHours")) (lit "8")
           ++ lit " hours of sleep. Your current patterns show room for optimization in sleep consistency and quality.";
         confidence := 0.8%Q;
         actionItems := [lit "Track sleep consistently"; lit "Maintain regular bedtime"; lit "Monitor sleep quality"];
         insights := [lit "Sleep consistency is key to quality"; lit "Room temperature affects sleep quality"];
         recommendations :=
           [ lit "Maintain consistent bedtime and wake time";
             lit "Keep bedroom temperature between 65-68" ++ [degree] ++ lit "F";
             lit "Avoid screens 1 hour before bed";
             lit "Create a relaxing bedtime routine" ];
         nextSteps := [lit "Set bedtime reminder"; lit "Prepare bedroom environment"; lit "Log tonight's sleep"] |};
      {| agent := lit "Sleep Optimization Coach";
         response := lit "Your sleep habits can be optimized through better sleep hygiene and routine establishment. Focus on consistency and environmental factors for better rest.";
         confidence := 0.8%Q;
         actionItems := [lit "Establish bedtime routine"; lit "Optimize sleep environment"; lit "Track sleep quality"];
         insights := [lit "Routine helps signal sleep time to your body"; lit "Environment greatly impacts sleep quality"];
         recommendations :=
           [ lit "Start wind-down routine 1 hour before bed";
             lit "Keep bedroom dark, cool, and quiet";
             lit "Avoid caffeine after 2 PM";
             lit "Use comfortable bedding and pillows" ];
         nextSteps := [lit "Plan tonight's routine"; lit "Adjust bedroom setup"; lit "Set caffeine cutoff reminder"] |} ]
  | daily_steps =>
    [ {| agent := lit "Physical Activity Analyst";
         response :=
           lit "Your current step count of "
           ++ interp_or (toLocaleString (get ctx (lit "currentSteps"))) (lit "0")
           ++ lit " shows you need "
           ++ interp_or (toLocaleString (get ctx (lit "remainingSteps"))) (lit "more")
           ++ lit " steps to reach your "
           ++ interp_or (toLocaleString (get ctx (lit "dailyStepTarget"))) (lit "10000")
           ++ lit " step goal.";
         confidence := 0.8%Q;
         actionItems := [lit "Increase daily movement"; lit "Find walking opportunities"; lit "Track step progress"];
         insights := [lit "Small movements throughout day add up"; lit "Consistency matters more than intensity"];
         recommendations :=
           [ lit "Take stairs instead of elevators";
             lit "Park farther away from destinations";
             lit "Take walking breaks every hour";
             lit "Walk during phone calls";
             lit "Use a standing desk when possible" ];
         nextSteps := [lit "Take a 10-minute walk now"; lit "Set hourly movement reminders"; lit "Plan walking routes"] |};
      {| agent := lit "Movement Coach";
         response := lit "To reach your step goal, focus on integrating movement into your daily routine. Small changes can lead to significant increases in daily activity.";
         confidence := 0.8%Q;
         actionItems := [lit "Integrate movement into routine"; lit "Set movement reminders"; lit "Track progress"];
         insights := [lit "Habit stacking makes movement automatic"; lit "Social walking increases adherence"];
         recommendations :=
           [ lit "Schedule 3 walking breaks during work";
             lit "Walk to nearby errands instead of driving";
             lit "Take evening walks with family/friends";
             lit "Use fitness apps for motivation";
             lit "Join walking groups or challenges" ];
         nextSteps := [lit "Schedule next walk"; lit "Invite someone to walk with you"; lit "Download step tracking app"] |} ]
  end.

(** [items.map((rec, i) => `${i + 1}. ${rec}`).join('\n')] *)
Definition numberedList (items : list jsstring) : jsstring :=
  unlines (imap (fun i rec => show_nat (i + 1) ++ lit ". " ++ rec) items).

(** [items.map(insight => `• ${insight}`).join('\n')] *)
Definition bulletList (items : list jsstring) : jsstring :=
  unlines (map (fun insight => [bullet; space] ++ insight) items).

Definition sleepEmoji : jsstring := [55357; 56884]%N.            (* U+1F634 *)
Definition walkingEmoji : jsstring :=
  [55357; 57014; 8205; 9792; 65039]%N.   (* U+1F6B6 U+200D U+2640 U+FE0F *)

Definition goalEmoji (goalType : GoalType) : jsstring :=
  match goalType with sleep_tracking => sleepEmoji | daily_steps => walkingEmoji end.

Definition goalName (goalType : GoalType) : jsstring :=
  match goalType with
  | sleep_tracking => lit "sleep optimization"
  | daily_steps => lit "daily movement"
  end.

(** The first line of the whole-crew fallback message. *)
Definition fallbackHeader (goalType : GoalType) : jsstring :=
  goalEmoji goalType ++ lit " **" ++ capitalize (goalName goalType) ++ lit " Plan**".

Definition generateFallbackFinalOutput (results : list AgentResponse)
    (goalType : GoalType) (userQuery : jsstring) : jsstring :=
  let allRecommendations := flatMap recommendations results in
  let topRecommendations := slice 0 5 allRecommendations in
  let allInsights := flatMap insights results in
  unlines
    [ fallbackHeader goalType;
      [];
      lit "Based on expert analysis, here's your personalized strategy:";
      [];
      lit "**Priority Actions:**";
      numberedList topRecommendations;
      [];
      lit "**Key Insights:**";
      bulletList allInsights;
      [];
      lit "**Next Steps:**";
      lit "Start with action #1 today and gradually build these habits into your routine. Consistency is more important than perfection!";
      [];
      lit "What would you like to focus on first?" ].

Definition getFallbackCrewExecution (goalType : GoalType)
    (userQuery : jsstring) (ctx : Context) : CrewExecution :=
  let fallbackResponses := getFallbackResponses goalType userQuery ctx in
  {| results := fallbackResponses;
     finalOutput := generateFallbackFinalOutput fallbackResponses goalType userQuery;
     executionTime := 500;
     success := true |}.

(** *** Agent task executor *)

Definition store_memory (agentRole : jsstring) (entries : list MemoryEntry)
    (s : State) : State :=
  {| apiKey := apiKey s;
     agentMemory := <[ agentRole := entries ]> (agentMemory s);
     userContext := userContext s; sent := sent s;
     clockReads := clockReads s |}.

Definition store_context (key : jsstring) (ctx : Context) (s : State) : State :=
  {| apiKey := apiKey s; agentMemory := agentMemory s;
     userContext := <[ key := ctx ]> (userContext s); sent := sent s;
     clockReads := clockReads s |}.

(** [getAgentMemory]: [this.agentMemory.get(agentRole) || []] *)
Definition getAgentMemory (agentRole : jsstring) (s : State) : list MemoryEntry :=
  default [] (agentMemory s !! agentRole).

(** [memory.push(entry)] followed by the cut to the last ten entries. *)
Definition pushMemory (memory : list MemoryEntry) (entry : MemoryEntry)
  : list MemoryEntry :=
  let pushed := memory ++ [entry] in
  if (10 <? length pushed)%nat
  then splice_front (Z.of_nat (length pushed) - 10) pushed
  else pushed.

(** [previousResults.map(r => r.response).join('\n\n')] *)
Definition previousContextOf (previousResults : list AgentResponse) : jsstring :=
  join [newline; newline] (map response previousResults).

(** [executeAgentTask]: the prompt is built before the [try]; the memory
    array read at entry is the one pushed to and stored back, which in a
    sequential run is the role's current entry of the map. *)
Definition executeAgentTask (agent : AgentConfig) (task : Task)
    (userQuery : jsstring) (ctx : Context)
    (previousResults : list AgentResponse) : M AgentResponse :=
  let* memory := gets (getAgentMemory (role agent)) in
  let previousContext := previousContextOf previousResults in
  let* prompt := lift (createAgentPrompt agent task userQuery ctx previousContext memory) in
  try_catch
    (let* text := callOpenAI prompt in
     let parsedResponse := parseAgentResponse text (role agent) in
     let* stamp := now in
     let entry := {| query := userQuery; mem_response := response parsedResponse;
                     timestamp := stamp; mem_context := ctx |} in
     let* _ := modify (store_memory (role agent) (pushMemory memory entry)) in
     ret parsedResponse)
    (ret (getFallbackAgentResponse (role agent) userQuery ctx)).

(** *** Crew coordinator *)

Definition agentBlock (a : AgentResponse) : jsstring :=
  unlines
    [ [];
      lit "### " ++ agent a;
      response a;
      [];
      lit "Key Recommendations:";
      unlines (map (fun r => lit "- " ++ r) (recommendations a));
      [] ].

Definition coordinationPrompt (agentResponses : list AgentResponse)
    (userQuery goalType : jsstring) : jsstring :=
  unlines
    [ [];
      lit "# Crew Coordination Task";
      [];
      lit "You are the crew coordinator for a " ++ replace_first underscore (lit " ") goalType
      ++ lit " assistance team. Multiple specialized agents have provided their analysis and recommendations for this user query: "
      ++ [dquote] ++ userQuery ++ [dquote];
      [];
      lit "## Agent Responses:";
      join [newline; newline] (map agentBlock agentResponses);
      [];
      lit "## Your Task";
      lit "Synthesize these expert insights into a cohesive, actionable response for the user. Create a unified plan that:";
      [];
      lit "1. **Integrates all agent recommendations** into a coherent strategy";
      lit "2. **Prioritizes actions** based on impact and feasibility  ";
      lit "3. **Provides specific next steps** the user can take today";
      lit "4. **Maintains an encouraging, supportive tone**";
      lit "5. **Includes measurable goals** where appropriate";
      [];
      lit "Format your response as a conversational message that feels like it's coming from a unified AI assistant, not multiple separate agents. Focus on what the user should do next.";
      [] ].

(** The [catch] branch of [coordinateAgentResponses]. *)
Definition combineLocally (agentResponses : list AgentResponse) : jsstring :=
  let combinedRecommendations := slice 0 5 (flatMap recommendations agentResponses) in
  let combinedInsights := slice 0 3 (flatMap insights agentResponses) in
  unlines
    [ lit "Based on expert analysis, here are your personalized recommendations:";
      [];
      numberedList combinedRecommendations;
      [];
      lit "Key insights:";
      bulletList combinedInsights;
      [];
      lit "Let me know if you'd like me to elaborate on any of these recommendations!" ].

Definition coordinateAgentResponses (agentResponses : list AgentResponse)
    (userQuery goalType : jsstring) : M jsstring :=
  try_catch
    (let* coordinatedResponse := callOpenAI (coordinationPrompt agentResponses userQuery goalType) in
     ret coordinatedResponse)
    (ret (combineLocally agentResponses)).

(** The [for] loop of [executeCrew]. A task whose agent key is missing from
    [crewConfig.agents] hands [undefined] to [executeAgentTask], which
    throws on reading its role, outside any [try] of its own. *)
Fixpoint runTasks (crewConfig : CrewConfig) (userQuery : jsstring)
    (ctx : Context) (pending : list Task) (results : list AgentResponse)
  : M (list AgentResponse) :=
  match pending with
  | [] => ret results
  | task :: rest =>
      match agents crewConfig !! task_agent task with
      | None => throw
      | Some agent =>
          let* agentResponse := executeAgentTask agent task userQuery ctx results in
          runTasks crewConfig userQuery ctx rest (results ++ [agentResponse])
      end
  end.

(** [executeCrew], with the crew registry as a parameter. *)
Definition executeCrewIn (registry : GoalType -> CrewConfig)
    (goalType : GoalType) (userQuery : jsstring) (ctx : Context)
  : M CrewExecution :=
  let* configured := gets (fun s => isConfigured (apiKey s)) in
  if negb configured then ret (getFallbackCrewExecution goalType userQuery ctx)
  else
    let* startTime := now in
    try_catch
      (let crewConfig := registry goalType in
       let* _ := modify (store_context (goalTypeName goalType ++ lit "_context") ctx) in
       let* results := runTasks crewConfig userQuery ctx (tasks crewConfig) [] in
       let* finalOutput := coordinateAgentResponses results userQuery (goalTypeName goalType) in
       let* endTime := now in
       ret {| results := results;
              finalOutput := finalOutput;
              executionTime := endTime - startTime;
              success := true |})
      (ret (getFallbackCrewExecution goalType userQuery ctx)).

Definition executeCrew : GoalType -> jsstring -> Context -> M CrewExecution :=
  executeCrewIn crewFor.

Definition getSleepCoaching (userQuery : jsstring) (sleepContext : Context)
  : M CrewExecution :=
  executeCrew sleep_tracking userQuery sleepContext.

Definition getStepsCoaching (userQuery : jsstring) (stepsContext : Context)
  : M CrewExecution :=
  executeCrew daily_steps userQuery stepsContext.

(** [new CrewAIService()] in a fresh world. *)
Definition newService (key : jsstring) : State :=
  {| apiKey := key; agentMemory := ∅; userContext := ∅; sent := [];
     clockReads := 0 |}.

(** [clearAgentMemory(agentRole?)]: an absent or empty role clears all. *)
Definition clearAgentMemory (agentRole : option jsstring) (s : State) : State :=
  {| apiKey := apiKey s;
     agentMemory :=
       match agentRole with
       | Some r => if is_empty r then ∅ else delete r (agentMemory s)
       | None => ∅
       end;
     userContext := userContext s; sent := sent s;
     clockReads := clockReads s |}.

(** *** Runs of the task executor, for the memory invariant *)

Record TaskCall := {
  call_agent : AgentConfig;
  call_task : Task;
  call_query : jsstring;
  call_context : Context;
  call_previous : list AgentResponse
}.

Definition runCall (c : TaskCall) (s : State) : State :=
  snd (executeAgentTask (call_agent c) (call_task c) (call_query c)
         (call_context c) (call_previous c) s).

Definition runCalls (cs : list TaskCall) (s : State) : State :=
  fold_left (fun st c => runCall c st) cs s.

(** The entry a call appends when it is run in state [s]: there is one
    exactly when the prompt can be built and the completion call returns. *)
Definition appendedBy (c : TaskCall) (s : State) : option MemoryEntry :=
  match createAgentPrompt (call_agent c) (call_task c) (call_query c)
          (call_context c) (previousContextOf (call_previous c))
          (getAgentMemory (role (call_agent c)) s) with
  | Throw => None
  | Ret prompt =>
      match fetch (length (sent s)) prompt with
      | Choice content =>
          Some {| query := call_query c; mem_response := default [] content;
                  timestamp := clock (clockReads s);
                  mem_context := call_context c |}
      | Rejected | NotOk _ _ | BadBody => None
      end
  end.

(** All entries appended for [agentRole] by a sequence of calls, oldest
    first. *)
Fixpoint insertedFor (agentRole : jsstring) (cs : list TaskCall) (s : State)
  : list MemoryEntry :=
  match cs with
  | [] => []
  | c :: rest =>
      (if str_eqb (role (call_agent c)) agentRole
       then match appendedBy c s with Some e => [e] | None => [] end
       else [])
      ++ insertedFor agentRole rest (runCall c s)
  end.

(** The last [n] elements of a list. *)
Definition lastN {A} (n : nat) (l : list A) : list A :=
  drop (length l - n) l.

(** *** The whole-crew fallback message as the specification words it

    The specification describes the final message of the whole-crew
    fallback as the local combiner's message under a header line. *)
Definition spec_fallbackFinalOutput (results : list AgentResponse)
    (goalType : GoalType) : jsstring :=
  unlines [ fallbackHeader goalType; []; combineLocally results ].

(** The prompt as the specification words it: the section of previous
    outputs holds the joined texts of the earlier responses, and the marker
    only for the first task. *)
Definition spec_previousOutputs (previousResults : list AgentResponse)
  : jsstring :=
  match previousResults with
  | [] => firstAgentMarker
  | _ => previousContextOf previousResults
  end.

Definition spec_createAgentPrompt (agent : AgentConfig) (task : Task)
    (userQuery : jsstring) (ctx : Context)
    (previousResults : list AgentResponse) (agentMemory : list MemoryEntry)
  : Outcome jsstring :=
  match formatContextForAgent ctx (role agent) with
  | Throw => Throw
  | Ret contextText =>
      Ret (agentPromptText agent task userQuery contextText
             (spec_previousOutputs previousResults)
             (memoryContext agentMemory))
  end.

(** Every piece of text a crew execution carries. *)
Definition responseTexts (r : AgentResponse) : list jsstring :=
  agent r :: response r
  :: actionItems r ++ insights r ++ recommendations r ++ nextSteps r.

Definition executionTexts (e : CrewExecution) : list jsstring :=
  finalOutput e :: flatMap responseTexts (results e).

Definition mentions (e : CrewExecution) (text : jsstring) : bool :=
  existsb (includes text) (executionTexts e).

End Engine.

Abbreviation Context := (gmap (list N) JSValue).

(** ** A concrete host for the examples: integer-valued numbers printed in
    decimal, a clock that advances by one second per reading. *)

Definition show_Z (z : Z) : jsstring :=
  lit (NilZero.string_of_int (Z.to_int z)).

#[local] Instance decimalNumbers : Numbers :=
  {| number := Z;
     number_truthy := fun z => negb (z =? 0)%Z;
     number_show := show_Z;
     number_locale := show_Z |}.

Definition hostWith (replies : nat -> jsstring -> Reply) : Host :=
  {| fetch := replies;
     clock := fun n => (1000 * Z.of_nat n)%Z |}.

(** An endpoint that is down, one that answers with an empty content, and
    one that echoes the prompt it received. *)
Definition downHost : Host := hostWith (fun _ _ => Rejected).
Definition emptyHost : Host := hostWith (fun _ _ => Choice (Some [])).

Definition liveKey : jsstring := lit "sk-0123456789abcdefghijklmnop".

(** Whether a reply makes [callOpenAI] throw. *)
Definition replyFails (r : Reply) : bool :=
  match r with
  | Choice _ => false
  | Rejected | NotOk _ _ | BadBody => true
  end.

(** ** Inputs of the examples *)

Definition sleepQuery : jsstring := lit "How can I sleep better?".

(** [{ targetSleepHours: 0 }] and [{ targetSleepHours: 7 }] on the
    concrete host. *)
Definition zeroTargetContext : Context :=
  {[ lit "targetSleepHours" := JNumber 0%Z ]}.

Definition sevenHoursContext : Context :=
  {[ lit "targetSleepHours" := JNumber 7%Z ]}.

(** ** The three extracted sections, for statements about any of them *)

Inductive Field := Recommendations | Insights | NextSteps.

(** The heading test of [scanLine] for a field. *)
Definition headingOf (f : Field) (line : jsstring) : bool :=
  match f with
  | Recommendations =>
      includes (lit "**Recommendations**:") line || includes (lit "**Recommendation") line
  | Insights =>
      includes (lit "**Insights**:") line || includes (lit "**Insight") line
  | NextSteps =>
      includes (lit "**Next Steps**:") line || includes (lit "**Action") line
  end.

(** How many lines after the heading are looked at. *)
Definition windowOf (f : Field) : nat :=
  match f with
  | Recommendations => 5
  | Insights | NextSteps => 3
  end.

Definition fieldOf (f : Field) (found : Sections) : list jsstring :=
  match f with
  | Recommendations => sec_recommendations found
  | Insights => sec_insights found
  | NextSteps => sec_nextSteps found
  end.

Definition responseField (f : Field) (r : AgentResponse) : list jsstring :=
  match f with
  | Recommendations => recommendations r
  | Insights => insights r
  | NextSteps => nextSteps r
  end.

(** Completions used to exercise the parser. *)

Definition plainHeadingText : jsstring :=
  unlines [ lit "Recommendations:";
            lit "- Keep a fixed bedtime";
            lit "- Dim the lights at nine";
            lit "- Skip the late coffee" ].

Definition boldHeadingText : jsstring :=
  unlines [ lit "Here is my advice.";
            lit "**Recommendations**:";
            lit "- Keep a fixed bedtime";
            [bullet; space] ++ lit "Dim the lights at nine";
            lit "-   Skip the late coffee  ";
            [];
            lit "Sleep well!" ].

Definition headingsBackToBackText : jsstring :=
  unlines [ lit "**Recommendations**:";
            lit "- Keep a fixed bedtime";
            lit "- Dim the lights at nine";
            lit "- Skip the late coffee";
            lit "**Insights**:";
            lit "- You go to bed late on weekends" ].

Definition asteriskBulletsText : jsstring :=
  unlines [ lit "**Recommendations**:";
            lit "* Keep a fixed bedtime";
            lit "- Dim the lights at nine";
            lit "* Skip the late coffee" ].

Definition noStructureText : jsstring :=
  lit "Try to sleep a little earlier tonight.".

(** An endpoint that always answers with the same short completion. *)
Definition okHost : Host := hostWith (fun _ _ => Choice (Some (lit "ok"))).

(** Twelve executions of the coach's task, asking ["1"] to ["12"]. *)
Definition twelveCalls : list TaskCall :=
  map (fun n => {| call_agent := sleepCoach; call_task := sleepCoachTask;
                   call_query := show_nat n; call_context := ∅;
                   call_previous := [] |})
      (seq 1 12).

(** A registry whose sleep crew names an agent it does not define. *)
Definition brokenRegistry (g : GoalType) : CrewConfig :=
  {| agents := agents (crewFor g);
     tasks := tasks (crewFor g)
              ++ [ {| description := lit "Summarize"; task_agent := lit "editor";
                      expected_output := lit "A summary" |} ];
     process := sequential; crew_memory := true; crew_verbose := true |}.

(** ** Comparing runs

    What a memory entry shows apart from its context snapshot, and two
    states that differ at most in the contexts they have stored. *)

Section Comparison.
Context {nums : Numbers} {host : Host}.

Definition entryText (m : MemoryEntry) : list N * list N * Z :=
  (query m, mem_response m, timestamp m).

Definition sameButContexts (s1 s2 : State) : Prop :=
  apiKey s1 = apiKey s2
  /\ sent s1 = sent s2
  /\ clockReads s1 = clockReads s2
  /\ forall r, map entryText (getAgentMemory r s1)
               = map entryText (getAgentMemory r s2).

(** A role that [formatContextForAgent] matches with none of its patterns. *)
Definition plainRole (agentRole : jsstring) : bool :=
  negb (includes (lit "sleep") agentRole)
  && negb (includes (lit "activity") agentRole
           || includes (lit "movement") agentRole
           || includes (lit "wellness") agentRole).

End Comparison.

(** ** The heading that decides a field, and the lines after a line *)

(** The last line of [lines] that is a heading of the field, if any. *)
Fixpoint lastHeading (f : Field) (lines : list jsstring) : option jsstring :=
  match lines with
  | [] => None
  | l :: rest =>
      match lastHeading f rest with
      | Some h => Some h
      | None => if headingOf f l then Some l else None
      end
  end.

(** The lines that follow the first line equal to [x]. *)
Fixpoint afterFirst (x : jsstring) (lines : list jsstring) : list jsstring :=
  match lines with
  | [] => []
  | y :: rest => if str_eqb y x then rest else afterFirst x rest
  end.

(** A service whose sleep coach has a full memory, and a line with an
    indented bullet. *)
Definition seasonedService : State :=
  runCalls (host := okHost) twelveCalls (newService liveKey).

Definition indentedBullet : jsstring := lit "  - Keep a fixed bedtime".

(** * Properties *)

Section Properties.
Context {nums : Numbers} {host : Host}.

(** ** The coordinator always returns a successful execution *)

(** C1. For both goal domains, every query, every context object and every
    state of the service and of the endpoint, [executeCrew] returns (it
    never throws) an execution whose success flag is true; the same holds
    over any crew registry, including one whose task loop throws. *)
Theorem executeCrew_always_succeeds :
  (forall (g : GoalType) (q : jsstring) (ctx : Context) (s : State),
      exists exec s',
        executeCrew g q ctx s = (Ret exec, s') /\ success exec = true)
  /\ (forall (registry : GoalType -> CrewConfig) (g : GoalType)
        (q : jsstring) (ctx : Context) (s : State),
      exists exec s',
        executeCrewIn registry g q ctx s = (Ret exec, s')
        /\ success exec = true).
Proof.
  assert (Hany : forall (registry : GoalType -> CrewConfig) (g : GoalType)
                   (q : jsstring) (ctx : Context) (s : State),
             exists exec s',
               executeCrewIn registry g q ctx s = (Ret exec, s')
               /\ success exec = true).
  { intros registry g q ctx s.
    unfold executeCrewIn, bind, gets, ret, try_catch, now, modify.
    (* unconfigured: the whole-crew fallback *)
    destruct (isConfigured (apiKey s)); simpl; [|eauto].
    (* configured: the loop either throws, and the handler falls back ... *)
    match goal with
    | |- context [runTasks ?c ?qq ?x ?p ?r ?st] =>
        destruct (runTasks c qq x p r st) as [[rs|] s1]
    end; [|eauto].
    (* ... or returns, and so does the coordination step *)
    destruct (coordinateAgentResponses rs q (goalTypeName g) s1)
      as [[out|] s2]; eauto. }
  split; [intros g q ctx s; exact (Hany crewFor g q ctx s) | exact Hany].
Qed.

(** ** Length of the result list *)

Lemma executeAgentTask_returns (a : AgentConfig) (t : Task) (q : jsstring)
    (ctx : Context) (prev : list AgentResponse) (s : State) (text : jsstring) :
  formatContextForAgent ctx (role a) = Ret text ->
  exists r s', executeAgentTask a t q ctx prev s = (Ret r, s').
Proof.
  intros Hctx.
  unfold executeAgentTask, bind, gets, lift, try_catch, createAgentPrompt.
  rewrite Hctx. cbn [fst snd].
  match goal with
  | |- context [callOpenAI ?p ?st] => destruct (callOpenAI p st) as [[txt|] s1]
  end; cbn; eauto.
Qed.

Lemma runTasks_length_of_ret (cfg : CrewConfig) (q : jsstring) (ctx : Context)
    (pending : list Task) :
  forall (acc : list AgentResponse) (s : State) rs s',
    runTasks cfg q ctx pending acc s = (Ret rs, s') ->
    length rs = (length acc + length pending)%nat.
Proof.
  induction pending as [|t rest IH]; intros acc s rs s' Hrun; cbn in Hrun.
  - unfold ret in Hrun. inversion Hrun; subst. cbn. lia.
  - destruct (agents cfg !! task_agent t) as [a|]; [|discriminate].
    unfold bind in Hrun.
    destruct (executeAgentTask a t q ctx acc s) as [[r|] s1]; [|discriminate].
    apply IH in Hrun. rewrite length_app in Hrun. cbn in *. lia.
Qed.

Lemma runTasks_returns (cfg : CrewConfig) (q : jsstring) (ctx : Context)
    (pending : list Task) :
  Forall (fun t => exists a text,
            agents cfg !! task_agent t = Some a
            /\ formatContextForAgent ctx (role a) = Ret text) pending ->
  forall (acc : list AgentResponse) (s : State),
    exists rs s', runTasks cfg q ctx pending acc s = (Ret rs, s').
Proof.
  induction 1 as [|t rest (a & text & Ha & Hctx) _ IH]; intros acc s; cbn.
  - unfold ret. eauto.
  - rewrite Ha. unfold bind.
    destruct (executeAgentTask_returns a t q ctx acc s text Hctx)
      as (r & s1 & ->).
    apply IH.
Qed.

Lemma crewFor_runnable (g : GoalType) (ctx : Context) :
  Forall (fun t => exists a text,
            agents (crewFor g) !! task_agent t = Some a
            /\ formatContextForAgent ctx (role a) = Ret text)
         (tasks (crewFor g)).
Proof.
  destruct g; cbn [crewFor tasks getSleepTrackingCrew getStepsTrackingCrew];
    repeat constructor; eexists; eexists; (split; [vm_compute; reflexivity|]);
    vm_compute; reflexivity.
Qed.

(** C2. The result list of [executeCrew] has as many entries as the selected
    crew has tasks, three for both domains, when the service is configured,
    and the two entries of the fallback engine when it is not; over any
    registry, a run that does not end in the whole-crew fallback has one
    entry per task. *)
Theorem results_length :
  (forall (g : GoalType) (q : jsstring) (ctx : Context) (s : State),
      exists exec s',
        executeCrew g q ctx s = (Ret exec, s')
        /\ length (results exec)
           = (if isConfigured (apiKey s)
              then length (tasks (crewFor g))
              else length (getFallbackResponses g q ctx))
        /\ length (tasks (crewFor g)) = 3%nat
        /\ length (getFallbackResponses g q ctx) = 2%nat)
  /\ (forall (registry : GoalType -> CrewConfig) (g : GoalType)
        (q : jsstring) (ctx : Context) (s : State),
      exists exec s',
        executeCrewIn registry g q ctx s = (Ret exec, s')
        /\ (length (results exec) = length (tasks (registry g))
            \/ results exec = getFallbackResponses g q ctx)).
Proof.
  split.
  - intros g q ctx s.
    unfold executeCrew, executeCrewIn, bind, gets, ret, try_catch, now, modify.
    destruct (isConfigured (apiKey s)); cbn [negb].
    + match goal with
      | |- context [runTasks ?c ?qq ?x ?p ?r ?st] =>
          destruct (runTasks_returns c qq x p (crewFor_runnable g ctx) r st)
            as (rs & s1 & Hrun)
      end.
      rewrite Hrun.
      apply runTasks_length_of_ret in Hrun.
      destruct (coordinateAgentResponses rs q (goalTypeName g) s1)
        as [[out|] s2] eqn:Hco.
      * eexists; eexists; split; [reflexivity|]. cbn [results].
        repeat split; [exact Hrun | destruct g; reflexivity..].
      * unfold coordinateAgentResponses, try_catch, bind, ret in Hco.
        destruct (callOpenAI _ s1) as [[txt|] s3]; discriminate.
    + eexists; eexists; split; [reflexivity|].
      repeat split; destruct g; reflexivity.
  - intros registry g q ctx s.
    unfold executeCrewIn, bind, gets, ret, try_catch, now, modify.
    destruct (isConfigured (apiKey s)); cbn [negb]; [|eauto].
    match goal with
    | |- context [runTasks ?c ?qq ?x ?p ?r ?st] =>
        destruct (runTasks c qq x p r st) as [[rs|] s1] eqn:Hrun
    end; [|eauto].
    apply runTasks_length_of_ret in Hrun.
    destruct (coordinateAgentResponses rs q (goalTypeName g) s1) as [[out|] s2];
      eauto.
Qed.

(** ** Action items *)

Lemma slice_0_take {A} (n : nat) (l : list A) :
  slice 0 (Z.of_nat n) l = take n l.
Proof.
  unfold slice, clamp_index.
  replace (0 <? 0)%Z with false by reflexivity.
  replace (Z.of_nat n <? 0)%Z with false by (symmetry; apply Z.ltb_ge; lia).
  cbn [drop].
  rewrite (Z.min_l 0) by lia. rewrite Z.sub_0_r. cbn [Z.to_nat drop].
  destruct (Z.min_spec (Z.of_nat n) (Z.of_nat (length l))) as [[Hlt ->]|[Hge ->]].
  - now rewrite Nat2Z.id.
  - rewrite Nat2Z.id. rewrite !take_ge; auto; lia.
Qed.

(** C9. Whatever the text, the action items of a parsed response are the
    first three extracted recommendations: no heading assigns them, a
    next-steps or action heading only fills [nextSteps]. *)
Theorem actionItems_are_first_recommendations (text agentRole : jsstring) :
  actionItems (parseAgentResponse text agentRole)
  = slice 0 3 (recommendations (parseAgentResponse text agentRole))
  /\ actionItems (parseAgentResponse text agentRole)
     = take 3 (recommendations (parseAgentResponse text agentRole))
  /\ nextSteps (parseAgentResponse text agentRole)
     = sec_nextSteps
         (fold_left (scanLine (responseLines text)) (responseLines text)
            {| sec_recommendations := []; sec_insights := [];
               sec_nextSteps := [] |}).
Proof.
  split; [reflexivity|split; [|reflexivity]].
  cbn [parseAgentResponse actionItems recommendations length Nat.eqb].
  exact (slice_0_take 3 _).
Qed.

(** ** A failed completion call leaves the memory alone *)

(** C10. When the prompt of an agent task can be built and the completion
    call made for it fails, [executeAgentTask] returns the role's fallback
    response, of confidence 0.6, and the memory map is exactly what it was
    before the task ran. *)
Theorem failed_call_keeps_memory (a : AgentConfig) (t : Task) (q : jsstring)
    (ctx : Context) (prev : list AgentResponse) (s : State) (prompt : jsstring) :
  createAgentPrompt a t q ctx (previousContextOf prev)
    (getAgentMemory (role a) s) = Ret prompt ->
  replyFails (fetch (length (sent s)) prompt) = true ->
  exists s',
    executeAgentTask a t q ctx prev s
    = (Ret (getFallbackAgentResponse (role a) q ctx), s')
    /\ agentMemory s' = agentMemory s
    /\ (forall r, getAgentMemory r s' = getAgentMemory r s)
    /\ sent s' = sent s ++ [prompt]
    /\ confidence (getFallbackAgentResponse (role a) q ctx) = 0.6%Q.
Proof.
  intros Hprompt Hfail.
  unfold executeAgentTask, bind, gets, lift, try_catch.
  rewrite Hprompt. cbn [fst snd].
  unfold callOpenAI.
  destruct (fetch (length (sent s)) prompt); try discriminate;
    (eexists; split; [reflexivity|]; repeat split).
Qed.

(** ** Substrings *)

Lemma startsWith_app (p r : jsstring) : startsWith p (p ++ r) = true.
Proof.
  induction p as [|c p IH]; [reflexivity|].
  cbn. now rewrite N.eqb_refl.
Qed.

Lemma startsWith_app_l (p s r : jsstring) :
  startsWith p s = true -> startsWith p (s ++ r) = true.
Proof.
  revert s; induction p as [|c p IH]; intros s Hs; [reflexivity|].
  destruct s as [|d s]; [discriminate|].
  cbn in *. apply andb_true_iff in Hs as [-> Hs]. cbn. now apply IH.
Qed.

Lemma includes_app_r (p a s : jsstring) :
  includes p s = true -> includes p (a ++ s) = true.
Proof.
  intros Hs. induction a as [|c a IH]; [exact Hs|].
  cbn. rewrite IH. apply orb_true_r.
Qed.

Lemma includes_app_l (p s r : jsstring) :
  includes p s = true -> includes p (s ++ r) = true.
Proof.
  induction s as [|c s IH]; intros Hs.
  - destruct p; [destruct r; reflexivity|discriminate].
  - cbn [includes] in Hs. apply orb_true_iff in Hs as [Hs|Hs].
    + change ((c :: s) ++ r) with (c :: (s ++ r)). cbn [includes].
      change (c :: (s ++ r)) with ((c :: s) ++ r).
      rewrite (startsWith_app_l _ _ r Hs). reflexivity.
    + change ((c :: s) ++ r) with (c :: (s ++ r)). cbn [includes].
      rewrite (IH Hs). apply orb_true_r.
Qed.

Lemma includes_prefix (p r : jsstring) : includes p (p ++ r) = true.
Proof.
  destruct p as [|c p]; [destruct r; reflexivity|].
  change ((c :: p) ++ r) with (c :: (p ++ r)). cbn [includes].
  change (c :: (p ++ r)) with ((c :: p) ++ r).
  now rewrite startsWith_app.
Qed.

Lemma includes_middle (p a b : jsstring) : includes p (a ++ p ++ b) = true.
Proof. apply includes_app_r, includes_prefix. Qed.

Lemma str_eqb_eq (a b : jsstring) : str_eqb a b = true <-> a = b.
Proof.
  revert b; induction a as [|x a IH]; intros [|y b]; cbn; try easy.
  rewrite andb_true_iff, N.eqb_eq, IH. split.
  - now intros [-> ->].
  - intros E; now inversion E.
Qed.

Lemma str_eqb_refl (a : jsstring) : str_eqb a a = true.
Proof. now apply str_eqb_eq. Qed.

(** ** The unconfigured service *)

Lemma isConfigured_false_iff (key : jsstring) :
  isConfigured key = false
  <-> key = [] \/ key = placeholderKey \/ (length key <= 20)%nat.
Proof.
  unfold isConfigured. split.
  - intros Hc.
    destruct key as [|c key]; [now left|]. right.
    destruct (str_eqb (c :: key) placeholderKey) eqn:Heq.
    + left. now apply str_eqb_eq.
    + right. cbn [is_empty negb andb] in Hc.
      apply Nat.ltb_ge in Hc. exact Hc.
  - intros [->|[->|Hlen]]; [reflexivity..|].
    apply Nat.ltb_ge in Hlen. rewrite Hlen. apply andb_false_r.
Qed.

Lemma mentions_first_response (e : CrewExecution) (r : AgentResponse)
    (rest : list AgentResponse) (text : jsstring) :
  results e = r :: rest ->
  includes text (response r) = true ->
  mentions e text = true.
Proof.
  intros Hres Hinc. unfold mentions, executionTexts. rewrite Hres.
  cbn. rewrite Hinc. now rewrite !orb_true_r.
Qed.

(** C8, as amended. When the API key is empty, the placeholder, or at most
    twenty code units long, [executeCrew] returns the whole-crew fallback
    and leaves the state as it was, so that no completion call is made; the
    execution reports 500 ms and its final output starts with the header of
    the domain. In the sleep domain the first of the two responses reads
    [Based on your sleep data, I can see you're targeting <v> hours of
    sleep. ...], where [<v>] is the target sleep hours of the context when
    that value is truthy, and the default 8 when it is absent or falsy. *)
Theorem unconfigured_fallback (g : GoalType) (q : jsstring) (ctx : Context)
    (s : State) :
  apiKey s = [] \/ apiKey s = placeholderKey \/ (length (apiKey s) <= 20)%nat ->
  exists exec,
    executeCrew g q ctx s = (Ret exec, s)
    /\ executionTime exec = 500%Z
    /\ startsWith (fallbackHeader g) (finalOutput exec) = true
    /\ includes (fallbackHeader g) (finalOutput exec) = true
    /\ (g = sleep_tracking ->
        exists first second,
          results exec = [first; second]
          /\ response first
             = lit "Based on your sleep data, I can see you're targeting "
               ++ (if truthy (get ctx (lit "targetSleepHours"))
                   then to_string (get ctx (lit "targetSleepHours"))
                   else lit "8")
               ++ lit " hours of sleep. Your current patterns show room for optimization in sleep consistency and quality."
          /\ includes
               (lit "targeting "
                ++ (if truthy (get ctx (lit "targetSleepHours"))
                    then to_string (get ctx (lit "targetSleepHours"))
                    else lit "8")
                ++ lit " hours of sleep")
               (response first) = true).
Proof.
  intros Hkey. apply isConfigured_false_iff in Hkey.
  unfold executeCrew, executeCrewIn, bind, gets, ret. rewrite Hkey. cbn [negb].
  eexists; split; [reflexivity|].
  cbn [getFallbackCrewExecution executionTime finalOutput].
  split; [reflexivity|].
  assert (Hstart : startsWith (fallbackHeader g)
            (generateFallbackFinalOutput (getFallbackResponses g q ctx) g q)
          = true).
  { unfold generateFallbackFinalOutput, unlines. cbn [join].
    apply startsWith_app. }
  split; [exact Hstart|]. split.
  - unfold generateFallbackFinalOutput, unlines. cbn [join].
    apply includes_prefix.
  - intros ->. cbn [results getFallbackResponses].
    eexists; eexists. split; [reflexivity|]. cbn [response].
    split; [reflexivity|].
    unfold interp_or.
    set (shown := if truthy (get ctx (lit "targetSleepHours"))
                  then to_string (get ctx (lit "targetSleepHours"))
                  else lit "8").
    change (lit "Based on your sleep data, I can see you're targeting ")
      with (lit "Based on your sleep data, I can see you're "
            ++ lit "targeting ").
    change (lit " hours of sleep. Your current patterns show room for optimization in sleep consistency and quality.")
      with (lit " hours of sleep"
            ++ lit ". Your current patterns show room for optimization in sleep consistency and quality.").
    rewrite <- !app_assoc. apply includes_app_r.
    rewrite !app_assoc. rewrite <- (app_assoc (lit "targeting ")).
    apply includes_prefix.
Qed.

(** ** The two combiners *)

(** C7, as amended. The final message of the whole-crew fallback and the
    message of the local combiner are two different fixed templates. Both
    number the first five recommendations pooled from all responses, in
    first-seen order and with duplicates kept. The fallback template is the
    header of the domain (emoji and capitalised title), an introduction, the
    numbered list under [**Priority Actions:**], all pooled insights as
    bullets under [**Key Insights:**], and a [**Next Steps:**] section with a
    closing question; the local combiner's is another introduction, the
    numbered list, the first three pooled insights under [Key insights:] and
    a call-to-action sentence. On the fallback responses of either domain
    the fallback message numbers five recommendations and lists four
    insights, of which the local combiner would keep three, and it is not
    the local combiner's message under the header. *)
Theorem fallback_and_local_combiner_shapes (g : GoalType) (q : jsstring)
    (ctx : Context) (results : list AgentResponse) :
  generateFallbackFinalOutput results g q
  = unlines
      [ fallbackHeader g;
        [];
        lit "Based on expert analysis, here's your personalized strategy:";
        [];
        lit "**Priority Actions:**";
        numberedList (take 5 (concat (map recommendations results)));
        [];
        lit "**Key Insights:**";
        bulletList (concat (map insights results));
        [];
        lit "**Next Steps:**";
        lit "Start with action #1 today and gradually build these habits into your routine. Consistency is more important than perfection!";
        [];
        lit "What would you like to focus on first?" ]
  /\ combineLocally results
     = unlines
         [ lit "Based on expert analysis, here are your personalized recommendations:";
           [];
           numberedList (take 5 (concat (map recommendations results)));
           [];
           lit "Key insights:";
           bulletList (take 3 (concat (map insights results)));
           [];
           lit "Let me know if you'd like me to elaborate on any of these recommendations!" ]
  /\ fallbackHeader g
     = match g with
       | sleep_tracking => sleepEmoji ++ lit " **Sleep optimization Plan**"
       | daily_steps => walkingEmoji ++ lit " **Daily movement Plan**"
       end
  /\ length (take 5 (concat (map recommendations
                                (getFallbackResponses g q ctx)))) = 5%nat
  /\ length (concat (map insights (getFallbackResponses g q ctx))) = 4%nat
  /\ length (take 3 (concat (map insights
                                (getFallbackResponses g q ctx)))) = 3%nat
  /\ generateFallbackFinalOutput (getFallbackResponses g q ctx) g q
     <> spec_fallbackFinalOutput (getFallbackResponses g q ctx) g.
Proof.
  split.
  { unfold generateFallbackFinalOutput, flatMap.
    now rewrite (slice_0_take 5). }
  split.
  { unfold combineLocally, flatMap.
    now rewrite (slice_0_take 5), (slice_0_take 3). }
  split; [destruct g; reflexivity|].
  split; [destruct g; reflexivity|].
  split; [destruct g; reflexivity|].
  split; [destruct g; reflexivity|].
  destruct g; intros E; vm_compute in E; discriminate E.
Qed.

(** ** The memory cap *)

Lemma lastN_length {A} (n : nat) (l : list A) : (length (lastN n l) <= n)%nat.
Proof. unfold lastN. rewrite length_drop. lia. Qed.

Lemma lastN_short {A} (n : nat) (l : list A) :
  (length l <= n)%nat -> lastN n l = l.
Proof.
  intros Hl. unfold lastN. replace (length l - n)%nat with 0%nat by lia.
  reflexivity.
Qed.

Lemma lastN_snoc {A} (n : nat) (h : list A) (e : A) :
  lastN n (lastN n h ++ [e]) = lastN n (h ++ [e]).
Proof.
  destruct (Nat.le_gt_cases (length h) n) as [Hle|Hgt].
  - now rewrite (lastN_short n h).
  - unfold lastN. rewrite !length_app, length_drop. cbn [length].
    replace (length h - (length h - n) + 1 - n)%nat with 1%nat by lia.
    replace (length h + 1 - n)%nat with ((length h - n) + 1)%nat by lia.
    rewrite <- (drop_drop (h ++ [e])).
    rewrite (drop_app_le h) by lia. reflexivity.
Qed.

Lemma pushMemory_lastN (memory : list MemoryEntry) (e : MemoryEntry) :
  pushMemory memory e = lastN 10 (memory ++ [e]).
Proof.
  unfold pushMemory, splice_front, lastN.
  destruct (10 <? length (memory ++ [e]))%nat eqn:Hlen.
  - apply Nat.ltb_lt in Hlen. f_equal. lia.
  - apply Nat.ltb_ge in Hlen.
    replace (length (memory ++ [e]) - 10)%nat with 0%nat by lia. reflexivity.
Qed.

Lemma getAgentMemory_store (r r' : jsstring) (m : list MemoryEntry) (s : State) :
  getAgentMemory r (store_memory r' m s)
  = if str_eqb r' r then m else getAgentMemory r s.
Proof.
  unfold getAgentMemory, store_memory. cbn [agentMemory].
  destruct (str_eqb r' r) eqn:E.
  - apply str_eqb_eq in E as ->. now rewrite lookup_insert_eq.
  - rewrite lookup_insert_ne; [reflexivity|].
    intros ->. now rewrite str_eqb_refl in E.
Qed.

(** What one task execution does to the memory of a role. *)
Lemma runCall_memory (c : TaskCall) (s : State) (r : jsstring) :
  getAgentMemory r (runCall c s)
  = if str_eqb (role (call_agent c)) r
    then match appendedBy c s with
         | Some e => pushMemory (getAgentMemory r s) e
         | None => getAgentMemory r s
         end
    else getAgentMemory r s.
Proof.
  unfold runCall, appendedBy, executeAgentTask, bind, gets, lift, try_catch.
  destruct (createAgentPrompt _ _ _ _ _ _) as [prompt|]; cbn [fst snd].
  2:{ now destruct (str_eqb _ r). }
  unfold callOpenAI.
  destruct (fetch (length (sent s)) prompt) as [| | |content]; cbn [fst snd];
    try (now destruct (str_eqb _ r)).
  unfold now, modify, ret. cbn [fst snd].
  rewrite getAgentMemory_store.
  destruct (str_eqb (role (call_agent c)) r) eqn:E; [|reflexivity].
  apply str_eqb_eq in E as <-. reflexivity.
Qed.

Lemma runCalls_memory (r : jsstring) (cs : list TaskCall) :
  forall (s : State) (h : list MemoryEntry),
    getAgentMemory r s = lastN 10 h ->
    getAgentMemory r (runCalls cs s) = lastN 10 (h ++ insertedFor r cs s).
Proof.
  induction cs as [|c cs IH]; intros s h Hinv; cbn [runCalls fold_left insertedFor].
  - now rewrite app_nil_r.
  - fold (runCalls cs (runCall c s)).
    rewrite app_assoc. apply IH.
    rewrite runCall_memory.
    destruct (str_eqb (role (call_agent c)) r);
      [destruct (appendedBy c s) as [e|]|]; rewrite ?app_nil_r; auto.
    rewrite pushMemory_lastN, Hinv. apply lastN_snoc.
Qed.

(** C4. After any sequence of agent-task executions on a fresh service, the
    memory of every role is the list of the last ten entries appended for
    that role, in insertion order; in particular it never holds more than
    ten entries and the entries dropped are the oldest. *)
Theorem memory_holds_last_ten (key : jsstring) (cs : list TaskCall)
    (r : jsstring) :
  getAgentMemory r (runCalls cs (newService key))
  = lastN 10 (insertedFor r cs (newService key))
  /\ (length (getAgentMemory r (runCalls cs (newService key))) <= 10)%nat
  /\ exists dropped,
       insertedFor r cs (newService key)
       = dropped ++ getAgentMemory r (runCalls cs (newService key)).
Proof.
  assert (Hmem : getAgentMemory r (runCalls cs (newService key))
                 = lastN 10 (insertedFor r cs (newService key))).
  { change (insertedFor r cs (newService key))
      with ([] ++ insertedFor r cs (newService key)).
    apply runCalls_memory. reflexivity. }
  rewrite Hmem. split; [reflexivity|]. split; [apply lastN_length|].
  unfold lastN. eexists. symmetry. apply take_drop.
Qed.

(** ** Prompts and earlier outputs *)

Lemma includes_unlines (x : jsstring) (ls : list jsstring) :
  In x ls -> includes x (unlines ls) = true.
Proof.
  unfold unlines. induction ls as [|l ls IH]; [easy|].
  intros [->|Hin].
  - destruct ls; [rewrite <- (app_nil_r x) at 2|]; apply includes_prefix.
  - destruct ls as [|l' ls]; [easy|].
    change (join [newline] (l :: l' :: ls))
      with (l ++ [newline] ++ join [newline] (l' :: ls)).
    now apply includes_app_r, includes_app_r, IH.
Qed.


(** One task execution whose context block can be rendered: it returns,
    posts exactly the prompt built from the previous results and the role's
    memory, and leaves the memory of every other role alone. *)
Lemma executeAgentTask_request (a : AgentConfig) (t : Task) (q : jsstring)
    (ctx : Context) (prev : list AgentResponse) (s : State)
    (contextText : jsstring) :
  formatContextForAgent ctx (role a) = Ret contextText ->
  exists r s',
    executeAgentTask a t q ctx prev s = (Ret r, s')
    /\ sent s' = sent s
                 ++ [agentPromptText a t q contextText
                       (previousOutputs (previousContextOf prev))
                       (memoryContext (getAgentMemory (role a) s))]
    /\ forall r', r' <> role a -> getAgentMemory r' s' = getAgentMemory r' s.
Proof.
  intros Hctx.
  unfold executeAgentTask, bind, gets, lift, try_catch, createAgentPrompt.
  rewrite Hctx. cbn [fst snd]. unfold callOpenAI.
  destruct (fetch _ _) as [| | |content]; cbn [fst snd];
    try (eexists; eexists; split; [reflexivity|]; split; [reflexivity|];
         intros; reflexivity).
  unfold now, modify, ret. cbn [fst snd].
  eexists; eexists; split; [reflexivity|]. split; [reflexivity|].
  intros r' Hne. rewrite getAgentMemory_store.
  destruct (str_eqb (role a) r') eqn:E; [|reflexivity].
  apply str_eqb_eq in E. congruence.
Qed.

Lemma runTasks_prompts (cfg : CrewConfig) (q : jsstring) (ctx : Context)
    (pending : list Task) :
  Forall (fun t => exists a text,
            agents cfg !! task_agent t = Some a
            /\ formatContextForAgent ctx (role a) = Ret text) pending ->
  forall (acc : list AgentResponse) (s : State),
  exists new s' prompts,
    runTasks cfg q ctx pending acc s = (Ret (acc ++ new), s')
    /\ length new = length pending
    /\ sent s' = sent s ++ prompts
    /\ length prompts = length pending
    /\ forall i t a contextText,
         pending !! i = Some t ->
         agents cfg !! task_agent t = Some a ->
         formatContextForAgent ctx (role a) = Ret contextText ->
         (forall j t' a', (j < i)%nat -> pending !! j = Some t' ->
            agents cfg !! task_agent t' = Some a' -> role a' <> role a) ->
         prompts !! i
         = Some (agentPromptText a t q contextText
                   (previousOutputs
                      (previousContextOf (take (length acc + i) (acc ++ new))))
                   (memoryContext (getAgentMemory (role a) s))).
Proof.
  induction 1 as [|t0 rest (a0 & text0 & Ha0 & Hctx0) _ IH]; intros acc s.
  - exists [], s, []. cbn. unfold ret. rewrite !app_nil_r.
    repeat split; intros; easy.
  - destruct (executeAgentTask_request a0 t0 q ctx acc s text0 Hctx0)
      as (r0 & s1 & Hexec & Hsent & Hmem).
    destruct (IH (acc ++ [r0]) s1) as (new1 & s' & prompts1 & Hrun & Hlen
                                        & Hsent' & Hlenp & Hprompts).
    exists (r0 :: new1), s',
      (agentPromptText a0 t0 q text0 (previousOutputs (previousContextOf acc))
         (memoryContext (getAgentMemory (role a0) s)) :: prompts1).
    cbn [runTasks]. rewrite Ha0. unfold bind. rewrite Hexec, Hrun.
    rewrite <- app_assoc. cbn [app length].
    split; [reflexivity|]. split; [now rewrite Hlen|].
    split; [rewrite Hsent', Hsent, <- app_assoc; reflexivity|].
    split; [now rewrite Hlenp|].
    intros i t a contextText Hi Ha Hctx Hdistinct.
    destruct i as [|i]; cbn in Hi.
    + inversion Hi; subst t0. rewrite Ha0 in Ha. inversion Ha; subst a0.
      rewrite Hctx0 in Hctx. inversion Hctx; subst text0.
      rewrite Nat.add_0_r, take_app_length. reflexivity.
    + rewrite lookup_cons.
      rewrite (Hprompts i t a contextText Hi Ha Hctx).
      * rewrite length_app, <- app_assoc. cbn [length app].
        replace (length acc + 1 + i)%nat with (length acc + S i)%nat by lia.
        rewrite Hmem; [reflexivity|].
        intros E. apply (Hdistinct 0%nat t0 a0); [lia|reflexivity|exact Ha0|].
        now symmetry.
      * intros j t' a' Hj Hlook Ha'.
        apply (Hdistinct (S j) t' a'); [lia|exact Hlook|exact Ha'].
Qed.

Lemma crewFor_roles_distinct (g : GoalType) (i j : nat) (t t' : Task)
    (a a' : AgentConfig) :
  (j < i)%nat ->
  tasks (crewFor g) !! i = Some t ->
  tasks (crewFor g) !! j = Some t' ->
  agents (crewFor g) !! task_agent t = Some a ->
  agents (crewFor g) !! task_agent t' = Some a' ->
  role a' <> role a.
Proof.
  intros Hji Hi Hj Ha Ha' E. apply str_eqb_eq in E.
  destruct g; destruct i as [|[|[|i]]]; destruct j as [|[|[|j]]];
    try lia; try discriminate Hi; try discriminate Hj;
    vm_compute in Hi, Hj; inversion Hi; inversion Hj; subst t t';
    vm_compute in Ha, Ha'; inversion Ha; inversion Ha'; subst a a';
    vm_compute in E; discriminate E.
Qed.


(** ** The response parser *)

Lemma slice_nat {A} (a b : nat) (l : list A) :
  slice (Z.of_nat a) (Z.of_nat b) l = take (b - a) (drop a l).
Proof.
  unfold slice, clamp_index.
  replace (Z.of_nat a <? 0)%Z with false by (symmetry; apply Z.ltb_ge; lia).
  replace (Z.of_nat b <? 0)%Z with false by (symmetry; apply Z.ltb_ge; lia).
  replace (Z.to_nat (Z.min (Z.of_nat b) (Z.of_nat (length l))
                      - Z.min (Z.of_nat a) (Z.of_nat (length l))))
    with (Nat.min b (length l) - Nat.min a (length l))%nat by lia.
  replace (Z.to_nat (Z.min (Z.of_nat a) (Z.of_nat (length l))))
    with (Nat.min a (length l)) by lia.
  destruct (Nat.le_gt_cases (length l) a) as [Hle|Hgt].
  - rewrite (drop_ge l a) by lia.
    rewrite (drop_ge l (a `min` length l)) by lia.
    now rewrite !take_nil.
  - rewrite (Nat.min_l a) by lia.
    destruct (Nat.le_gt_cases b (length l)) as [Hb|Hb].
    + rewrite (Nat.min_l b) by lia. reflexivity.
    + rewrite (Nat.min_r b) by lia.
      rewrite !take_ge by (rewrite length_drop; lia). reflexivity.
Qed.

Lemma indexOf_fresh (x : jsstring) (pre post : list jsstring) :
  Forall (fun y => y <> x) pre ->
  indexOf x (pre ++ x :: post) = Z.of_nat (length pre).
Proof.
  induction 1 as [|y pre Hy _ IH]; cbn [app indexOf length].
  - now rewrite str_eqb_refl.
  - destruct (str_eqb y x) eqn:E; [apply str_eqb_eq in E; contradiction|].
    rewrite IH.
    replace (Z.of_nat (length pre) <? 0)%Z with false
      by (symmetry; apply Z.ltb_ge; lia).
    lia.
Qed.

Lemma bulletsAfter_fresh (x : jsstring) (pre post : list jsstring) (w : nat) :
  Forall (fun y => y <> x) pre ->
  bulletsAfter (pre ++ x :: post) x (Z.of_nat w + 1)
  = map stripMarker (List.filter isBulleted (take w post)).
Proof.
  intros Hfresh. unfold bulletsAfter. rewrite (indexOf_fresh x pre post Hfresh).
  replace (Z.of_nat (length pre) + 1)%Z with (Z.of_nat (length pre + 1)) by lia.
  replace (Z.of_nat (length pre) + (Z.of_nat w + 1))%Z
    with (Z.of_nat (length pre + 1 + w)) by lia.
  rewrite slice_nat.
  replace (length pre + 1 + w - (length pre + 1))%nat with w by lia.
  rewrite drop_app_ge by lia.
  replace (length pre + 1 - length pre)%nat with 1%nat by lia.
  reflexivity.
Qed.

Lemma scanLine_field (f : Field) (lines : list jsstring) (acc : Sections)
    (line : jsstring) :
  fieldOf f (scanLine lines acc line)
  = if headingOf f line
    then bulletsAfter lines line (Z.of_nat (windowOf f) + 1)
    else fieldOf f acc.
Proof. destruct f; reflexivity. Qed.

Lemma scan_no_heading (f : Field) (lines ls : list jsstring) :
  Forall (fun l => headingOf f l = false) ls ->
  forall acc, fieldOf f (fold_left (scanLine lines) ls acc) = fieldOf f acc.
Proof.
  induction 1 as [|l ls Hl _ IH]; intros acc; cbn [fold_left]; [reflexivity|].
  rewrite IH, scanLine_field, Hl. reflexivity.
Qed.

Lemma scan_single_heading (f : Field) (pre post : list jsstring)
    (heading : jsstring) (acc : Sections) :
  headingOf f heading = true ->
  Forall (fun l => headingOf f l = false) pre ->
  Forall (fun l => headingOf f l = false) post ->
  fieldOf f (fold_left (scanLine (pre ++ heading :: post))
               (pre ++ heading :: post) acc)
  = map stripMarker (List.filter isBulleted (take (windowOf f) post)).
Proof.
  intros Hh Hpre Hpost.
  rewrite fold_left_app. cbn [fold_left].
  rewrite (scan_no_heading f _ post Hpost), scanLine_field, Hh.
  apply bulletsAfter_fresh.
  eapply Forall_impl; [exact Hpre|].
  cbn. intros l Hl ->. congruence.
Qed.

(** *** Whitespace and bullet markers *)

Lemma drop_ws_head (s r : jsstring) (c : N) :
  drop_ws s = c :: r -> is_ws c = false.
Proof.
  induction s as [|x s IH]; cbn; [discriminate|].
  destruct (is_ws x) eqn:E; [exact IH|]. intros Hs. now inversion Hs; subst.
Qed.

Lemma drop_ws_nil (s : jsstring) (c : N) :
  drop_ws s = [] -> In c s -> is_ws c = true.
Proof.
  induction s as [|x s IH]; cbn; [easy|].
  destruct (is_ws x) eqn:E; [|discriminate].
  intros Hs [<-|Hin]; auto.
Qed.

Lemma drop_ws_idem (s : jsstring) : drop_ws (drop_ws s) = drop_ws s.
Proof.
  induction s as [|x s IH]; cbn; [reflexivity|].
  destruct (is_ws x) eqn:E; [exact IH|]. cbn. now rewrite E.
Qed.

Lemma drop_ws_snoc (s : jsstring) (c : N) :
  is_ws c = false -> drop_ws (s ++ [c]) = drop_ws s ++ [c].
Proof.
  intros Hc. induction s as [|x s IH]; cbn; [now rewrite Hc|].
  now destruct (is_ws x).
Qed.

Lemma trim_cons (c : N) (r : jsstring) :
  is_ws c = false -> trim (c :: r) = c :: rev (drop_ws (rev r)).
Proof.
  intros Hc. unfold trim. cbn [drop_ws]. rewrite Hc. cbn [rev].
  rewrite (drop_ws_snoc _ c Hc), rev_app_distr. reflexivity.
Qed.

Lemma nonblank_In (s : jsstring) (c : N) :
  In c s -> is_ws c = false -> nonblank s = true.
Proof.
  intros Hin Hc. unfold nonblank, trim.
  destruct (drop_ws s) as [|d r] eqn:Hs.
  - rewrite (drop_ws_nil s c Hs Hin) in Hc. discriminate.
  - cbn [rev]. rewrite (drop_ws_snoc _ d (drop_ws_head s r d Hs)).
    rewrite rev_app_distr. reflexivity.
Qed.

Lemma includes_In (c : N) (p s : jsstring) :
  includes (c :: p) s = true -> In c s.
Proof.
  induction s as [|x s IH]; cbn [includes startsWith]; [discriminate|].
  intros Hs. apply orb_true_iff in Hs as [Hs|Hs].
  - apply andb_true_iff in Hs as [Hx _]. apply N.eqb_eq in Hx. now left.
  - right. now apply IH.
Qed.

Lemma headingOf_nonblank (f : Field) (l : jsstring) :
  headingOf f l = true -> nonblank l = true.
Proof.
  intros Hh. apply (nonblank_In l asterisk); [|reflexivity].
  destruct f; cbn [headingOf] in Hh; apply orb_true_iff in Hh as [Hh|Hh];
    exact (includes_In asterisk _ l Hh).
Qed.

Lemma marker_line (m : N) (r : jsstring) :
  m = hyphen \/ m = bullet ->
  isBulleted (m :: r) = true
  /\ nonblank (m :: r) = true
  /\ stripMarker (m :: r) = trim r.
Proof.
  intros Hm.
  assert (Hws : is_ws m = false) by (destruct Hm as [->| ->]; reflexivity).
  split; [|split].
  - unfold isBulleted. rewrite (trim_cons m r Hws).
    destruct Hm as [->| ->]; reflexivity.
  - apply (nonblank_In _ m); [now left|exact Hws].
  - unfold stripMarker.
    replace ((m =? hyphen) || (m =? bullet))%N with true
      by (destruct Hm as [->| ->]; reflexivity).
    unfold trim. now rewrite drop_ws_idem.
Qed.

Lemma asterisk_line (r : jsstring) : isBulleted (asterisk :: r) = false.
Proof. unfold isBulleted. now rewrite trim_cons. Qed.

(** *** One heading, one window *)

Lemma Forall_filter_bool {A} (P : A -> Prop) (g : A -> bool) (l : list A) :
  Forall P l -> Forall P (List.filter g l).
Proof.
  induction 1 as [|x l Hx _ IH]; cbn; [constructor|].
  destruct (g x); [constructor|]; assumption.
Qed.

Lemma responseField_parse (f : Field) (text agentRole : jsstring) :
  responseField f (parseAgentResponse text agentRole)
  = fieldOf f
      (fold_left (scanLine (responseLines text)) (responseLines text)
         {| sec_recommendations := []; sec_insights := [];
            sec_nextSteps := [] |}).
Proof. destruct f; reflexivity. Qed.

(** A text with exactly one heading line for a field: the field holds the
    bulleted lines among the first [windowOf f] non-blank lines after the
    heading, each without its marker. *)
Lemma parse_field_single_heading (f : Field) (text agentRole : jsstring)
    (before after : list jsstring) (heading : jsstring) :
  split newline text = before ++ heading :: after ->
  headingOf f heading = true ->
  Forall (fun l => headingOf f l = false) before ->
  Forall (fun l => headingOf f l = false) after ->
  responseField f (parseAgentResponse text agentRole)
  = map stripMarker
      (List.filter isBulleted
         (take (windowOf f) (List.filter nonblank after))).
Proof.
  intros Hsplit Hh Hbefore Hafter.
  rewrite responseField_parse. unfold responseLines. rewrite Hsplit.
  rewrite List.filter_app. cbn [List.filter].
  rewrite (headingOf_nonblank f heading Hh).
  apply scan_single_heading; auto using Forall_filter_bool.
Qed.

Lemma parse_field_no_heading (f : Field) (text agentRole : jsstring) :
  Forall (fun l => headingOf f l = false) (split newline text) ->
  responseField f (parseAgentResponse text agentRole) = [].
Proof.
  intros Hnone. rewrite responseField_parse.
  rewrite scan_no_heading; [now destruct f|].
  now apply Forall_filter_bool.
Qed.

(** *** Headings and the lines of a text *)

Lemma startsWith_weaken (p q s : jsstring) :
  startsWith (p ++ q) s = true -> startsWith p s = true.
Proof.
  revert s; induction p as [|c p IH]; intros s; [reflexivity|].
  destruct s as [|d s]; cbn; [discriminate|].
  intros Hs. apply andb_true_iff in Hs as [-> Hs]. now apply IH.
Qed.

Lemma includes_weaken (p q s : jsstring) :
  includes (p ++ q) s = true -> includes p s = true.
Proof.
  induction s as [|x s IH]; cbn [includes]; intros Hs;
    apply orb_true_iff in Hs as [Hs|Hs]; try discriminate.
  - now rewrite (startsWith_weaken p q [] Hs).
  - now rewrite (startsWith_weaken p q (x :: s) Hs).
  - rewrite (IH Hs). apply orb_true_r.
Qed.

Lemma headingOf_recommendations (l : jsstring) :
  headingOf Recommendations l = includes (lit "**Recommendation") l.
Proof.
  cbn [headingOf].
  destruct (includes (lit "**Recommendation") l) eqn:E; [apply orb_true_r|].
  rewrite orb_false_r.
  destruct (includes (lit "**Recommendations**:") l) eqn:E'; [|reflexivity].
  change (lit "**Recommendations**:")
    with (lit "**Recommendation" ++ lit "s**:") in E'.
  apply includes_weaken in E'. congruence.
Qed.

Lemma split_nonempty (c : N) (s : jsstring) : split c s <> [].
Proof.
  destruct s as [|x s]; cbn [split]; [discriminate|].
  destruct (x =? c)%N; [discriminate|]. now destruct (split c s).
Qed.

Lemma split_first_prefix (c : N) (s : jsstring) :
  forall l ls, split c s = l :: ls -> exists rest, s = l ++ rest.
Proof.
  induction s as [|x s IH]; intros l ls; cbn [split].
  - intros E; injection E as <- <-. now exists [].
  - destruct (x =? c)%N.
    + intros E; injection E as <- <-. now exists (x :: s).
    + destruct (split c s) as [|l0 ls0] eqn:Hs.
      * now destruct (split_nonempty c s).
      * intros E; injection E as <- <-.
        destruct (IH l0 ls0 eq_refl) as (rest & ->). now exists rest.
Qed.

Lemma split_line_includes (p : jsstring) (c : N) (s : jsstring) :
  forall l, In l (split c s) -> includes p l = true -> includes p s = true.
Proof.
  induction s as [|x s IH]; intros l; cbn [split].
  - intros [<-|[]]. auto.
  - destruct (x =? c)%N.
    + intros [<-|Hin] Hl.
      * destruct p; [reflexivity|discriminate].
      * cbn [includes]. rewrite (IH l Hin Hl). apply orb_true_r.
    + destruct (split c s) as [|l0 ls0] eqn:Hs.
      * now destruct (split_nonempty c s).
      * intros [<-|Hin] Hl.
        -- destruct (split_first_prefix c s l0 ls0 Hs) as (rest & ->).
           change (x :: l0 ++ rest) with ((x :: l0) ++ rest).
           now apply includes_app_l.
        -- cbn [includes]. rewrite (IH l (or_intror Hin) Hl).
           apply orb_true_r.
Qed.

Lemma filter_none {A} (g : A -> bool) (l : list A) :
  Forall (fun x => g x = false) l -> List.filter g l = [].
Proof.
  induction 1 as [|x l Hx _ IH]; cbn; [reflexivity|]. now rewrite Hx.
Qed.

Lemma no_heading_in_lines (text : jsstring) :
  includes (lit "**Recommendation") text = false ->
  Forall (fun l => headingOf Recommendations l = false) (split newline text).
Proof.
  intros Hnone. apply List.Forall_forall. intros l Hin.
  rewrite headingOf_recommendations.
  destruct (includes (lit "**Recommendation") l) eqn:E; [|reflexivity].
  rewrite (split_line_includes _ newline text l Hin E) in Hnone.
  discriminate.
Qed.

(** C5, as amended. The heading of the recommendations is a line that
    contains [**Recommendation] (so also [**Recommendations**:]). When it is
    the only such line of the text and is followed by three lines that start
    with [-] or [•], after which the next two non-blank lines, if any, are
    not bulleted, the recommendations are the three lines without marker and
    surrounding whitespace, in order. When the text does not contain
    [**Recommendation] the recommendations are empty. In both cases the raw
    text is returned in the response field. *)
Theorem recommendations_after_heading (text agentRole : jsstring)
    (before after : list jsstring) (heading : jsstring)
    (m1 m2 m3 : N) (r1 r2 r3 : jsstring) :
  (split newline text
   = before ++ heading :: (m1 :: r1) :: (m2 :: r2) :: (m3 :: r3) :: after ->
   includes (lit "**Recommendation") heading = true ->
   Forall (fun l => includes (lit "**Recommendation") l = false)
     (before ++ [m1 :: r1; m2 :: r2; m3 :: r3] ++ after) ->
   Forall (fun m => m = hyphen \/ m = bullet) [m1; m2; m3] ->
   Forall (fun l => isBulleted l = false)
     (take 2 (List.filter nonblank after)) ->
   recommendations (parseAgentResponse text agentRole)
   = [trim r1; trim r2; trim r3]
   /\ response (parseAgentResponse text agentRole) = text)
  /\ (includes (lit "**Recommendation") text = false ->
      recommendations (parseAgentResponse text agentRole) = []
      /\ response (parseAgentResponse text agentRole) = text).
Proof.
  split.
  - intros Hsplit Hh Hothers Hmarkers Hrest. split; [|reflexivity].
    apply Forall_app in Hothers as [Hbefore Hafter].
    inversion Hmarkers as [|? ? Hm1 Hm']; subst.
    inversion Hm' as [|? ? Hm2 Hm'']; subst.
    inversion Hm'' as [|? ? Hm3 _]; subst.
    destruct (marker_line m1 r1 Hm1) as (Hb1 & Hn1 & Hs1).
    destruct (marker_line m2 r2 Hm2) as (Hb2 & Hn2 & Hs2).
    destruct (marker_line m3 r3 Hm3) as (Hb3 & Hn3 & Hs3).
    change (recommendations (parseAgentResponse text agentRole))
      with (responseField Recommendations (parseAgentResponse text agentRole)).
    rewrite (parse_field_single_heading Recommendations text agentRole before
               ((m1 :: r1) :: (m2 :: r2) :: (m3 :: r3) :: after) heading Hsplit).
    + cbn [List.filter]. rewrite Hn1, Hn2, Hn3.
      cbn [windowOf take List.filter]. rewrite Hb1, Hb2, Hb3.
      rewrite (filter_none _ _ Hrest). cbn [map].
      now rewrite Hs1, Hs2, Hs3.
    + now rewrite headingOf_recommendations.
    + eapply Forall_impl; [exact Hbefore|].
      intros l Hl. cbn beta. now rewrite headingOf_recommendations.
    + eapply Forall_impl; [exact Hafter|].
      intros l Hl. cbn beta. now rewrite headingOf_recommendations.
  - intros Hnone. split; [|reflexivity].
    exact (parse_field_no_heading Recommendations text agentRole
             (no_heading_in_lines text Hnone)).
Qed.

(** C6, as amended. The parser accepts two bullet markers, [-] and [•]:
    when a text has one heading line for a field, the field holds the
    bulleted lines among the non-blank lines of the window after the
    heading (five lines for recommendations, three for insights and next
    steps), each without its marker; a line that begins with either marker
    is bulleted and is stripped to its trimmed remainder; a line that begins
    with [*] is not collected. The parser is a total function and returns
    the raw text in the response field. *)
Theorem bullet_markers_collected (f : Field) (text agentRole : jsstring)
    (before after : list jsstring) (heading : jsstring) :
  (split newline text = before ++ heading :: after ->
   headingOf f heading = true ->
   Forall (fun l => headingOf f l = false) (before ++ after) ->
   responseField f (parseAgentResponse text agentRole)
   = map stripMarker
       (List.filter isBulleted
          (take (windowOf f) (List.filter nonblank after))))
  /\ (forall (m : N) (r : jsstring),
         m = hyphen \/ m = bullet ->
         isBulleted (m :: r) = true /\ stripMarker (m :: r) = trim r)
  /\ (forall r : jsstring, isBulleted (asterisk :: r) = false)
  /\ response (parseAgentResponse text agentRole) = text.
Proof.
  split; [|split; [|split; [|reflexivity]]].
  - intros Hsplit Hh Hothers.
    apply Forall_app in Hothers as [Hbefore Hafter].
    now apply (parse_field_single_heading f text agentRole before after heading).
  - intros m r Hm. destruct (marker_line m r Hm) as (Hb & _ & Hs). now split.
  - exact asterisk_line.
Qed.

(** * Further properties of the service *)

(** ** What a run leaves alone *)

(** One task execution: the key and the stored contexts stay, at most one
    request is posted and at most one clock reading made, and only the
    memory of the agent's own role can change. *)
Lemma executeAgentTask_frame (a : AgentConfig) (t : Task) (q : jsstring)
    (ctx : Context) (prev : list AgentResponse) (s : State) o s' :
  executeAgentTask a t q ctx prev s = (o, s') ->
  apiKey s' = apiKey s
  /\ userContext s' = userContext s
  /\ (exists new, sent s' = sent s ++ new /\ (length new <= 1)%nat)
  /\ (clockReads s <= clockReads s')%nat
  /\ (forall r, r <> role a -> getAgentMemory r s' = getAgentMemory r s).
Proof.
  unfold executeAgentTask, bind, gets, lift, try_catch.
  destruct (createAgentPrompt _ _ _ _ _ _) as [prompt|]; cbn [fst snd].
  2:{ intros E; injection E as <- <-.
      repeat split; auto. exists []. rewrite app_nil_r. split; [auto|cbn; lia]. }
  unfold callOpenAI.
  destruct (fetch _ _) as [| | |content]; cbn [fst snd];
    try (intros E; injection E as <- <-; repeat split; auto;
         eexists; split; [reflexivity|cbn; lia]).
  unfold now, modify, ret. cbn [fst snd].
  intros E; injection E as <- <-. repeat split; cbn; auto.
  - eexists; split; [reflexivity|cbn; lia].
  - intros r Hr. rewrite getAgentMemory_store.
    destruct (str_eqb (role a) r) eqn:Heq; [|reflexivity].
    apply str_eqb_eq in Heq. congruence.
Qed.

Lemma runTasks_frame (cfg : CrewConfig) (q : jsstring) (ctx : Context)
    (pending : list Task) :
  forall (acc : list AgentResponse) (s : State) o s',
    runTasks cfg q ctx pending acc s = (o, s') ->
    apiKey s' = apiKey s
    /\ userContext s' = userContext s
    /\ (exists new, sent s' = sent s ++ new
                    /\ (length new <= length pending)%nat)
    /\ (clockReads s <= clockReads s')%nat
    /\ (forall r,
          (forall t a, In t pending -> agents cfg !! task_agent t = Some a ->
                       role a <> r) ->
          getAgentMemory r s' = getAgentMemory r s).
Proof.
  induction pending as [|t rest IH]; intros acc s o s'; cbn [runTasks].
  - unfold ret. intros E; injection E as <- <-.
    repeat split; auto. exists []. rewrite app_nil_r. split; [auto|cbn; lia].
  - destruct (agents cfg !! task_agent t) as [a|] eqn:Ha.
    2:{ unfold throw. intros E; injection E as <- <-.
        repeat split; auto. exists []. rewrite app_nil_r. split; [auto|cbn; lia]. }
    unfold bind.
    destruct (executeAgentTask a t q ctx acc s) as [[r0|] s1] eqn:Hexec;
      destruct (executeAgentTask_frame a t q ctx acc s _ s1 Hexec)
        as (Hk & Hu & (new1 & Hs1 & Hl1) & Hc & Hm).
    + intros Hrun.
      destruct (IH _ _ _ _ Hrun) as (Hk' & Hu' & (new2 & Hs2 & Hl2) & Hc' & Hm').
      split; [congruence|]. split; [congruence|].
      split; [exists (new1 ++ new2); rewrite Hs2, Hs1, <- app_assoc;
              split; [reflexivity|rewrite length_app; cbn; lia]|].
      split; [lia|].
      intros r Hr. rewrite Hm'.
      * apply Hm. intros E. apply (Hr t a); [now left|exact Ha|now symmetry].
      * intros t' a' Hin. apply Hr. now right.
    + intros E; injection E as <- <-.
      split; [exact Hk|]. split; [exact Hu|].
      split; [exists new1; split; [exact Hs1|cbn; lia]|].
      split; [exact Hc|].
      intros r Hr. apply Hm. intros E.
      apply (Hr t a); [now left|exact Ha|now symmetry].
Qed.

Lemma coordinateAgentResponses_frame (rs : list AgentResponse)
    (q g : jsstring) (s : State) :
  exists out s',
    coordinateAgentResponses rs q g s = (Ret out, s')
    /\ out = match fetch (length (sent s)) (coordinationPrompt rs q g) with
             | Choice content => default [] content
             | Rejected | NotOk _ _ | BadBody => combineLocally rs
             end
    /\ apiKey s' = apiKey s
    /\ userContext s' = userContext s
    /\ agentMemory s' = agentMemory s
    /\ sent s' = sent s ++ [coordinationPrompt rs q g]
    /\ clockReads s' = clockReads s.
Proof.
  unfold coordinateAgentResponses, try_catch, bind, ret, callOpenAI.
  destruct (fetch _ _); eexists; eexists; repeat split.
Qed.

(** The whole of [executeCrewIn] in terms of what it touches. *)
Lemma executeCrewIn_frame (registry : GoalType -> CrewConfig) (g : GoalType)
    (q : jsstring) (ctx : Context) (s : State) :
  let s' := snd (executeCrewIn registry g q ctx s) in
  apiKey s' = apiKey s
  /\ userContext s'
     = (if isConfigured (apiKey s)
        then <[ goalTypeName g ++ lit "_context" := ctx ]> (userContext s)
        else userContext s)
  /\ (exists new,
        sent s' = sent s ++ new
        /\ (length new
            <= if isConfigured (apiKey s)
               then length (tasks (registry g)) + 1 else 0)%nat)
  /\ (forall r,
        (forall t a, In t (tasks (registry g)) ->
                     agents (registry g) !! task_agent t = Some a ->
                     role a <> r) ->
        getAgentMemory r s' = getAgentMemory r s).
Proof.
  unfold executeCrewIn, bind, gets, ret, try_catch, now, modify.
  destruct (isConfigured (apiKey s)); cbn [negb fst snd].
  2:{ repeat split; auto. exists []. now rewrite app_nil_r. }
  match goal with
  | |- context [runTasks ?c ?qq ?x ?p ?r ?st] =>
      destruct (runTasks c qq x p r st) as [[rs|] s1] eqn:Hrun;
      destruct (runTasks_frame c qq x p r st _ s1 Hrun)
        as (Hk & Hu & (new & Hs & Hl) & _ & Hm)
  end; cbn [apiKey userContext sent store_context] in *.
  - destruct (coordinateAgentResponses_frame rs q (goalTypeName g) s1)
      as (out & s2 & -> & _ & Hk2 & Hu2 & Hm2 & Hs2 & _).
    cbn [snd apiKey userContext sent].
    split; [congruence|]. split; [congruence|].
    split.
    + exists (new ++ [coordinationPrompt rs q (goalTypeName g)]).
      rewrite Hs2, Hs, <- app_assoc. split; [reflexivity|].
      rewrite length_app. cbn. lia.
    + intros r Hr. unfold getAgentMemory. rewrite Hm2.
      exact (Hm r Hr).
  - cbn [snd]. split; [exact Hk|]. split; [exact Hu|].
    split; [exists new; split; [exact Hs|lia]|exact Hm].
Qed.

(** X1. No retries: whatever the registry, the endpoint and the context, a
    call to [executeCrewIn] only appends to the log of requests, and appends
    at most one request per task plus the coordination request; an
    unconfigured service appends none. *)
Theorem requests_are_bounded (registry : GoalType -> CrewConfig)
    (g : GoalType) (q : jsstring) (ctx : Context) (s : State) :
  exists new,
    sent (snd (executeCrewIn registry g q ctx s)) = sent s ++ new
    /\ (length new
        <= if isConfigured (apiKey s)
           then length (tasks (registry g)) + 1 else 0)%nat.
Proof.
  destruct (executeCrewIn_frame registry g q ctx s) as (_ & _ & Hsent & _).
  exact Hsent.
Qed.

(** X2. [executeCrewIn] never changes the API key. A configured call
    records the context under the key [<goalType>_context] of [userContext],
    replacing what was stored there and keeping every other key, also when
    the run ends in the whole-crew fallback; an unconfigured call leaves
    [userContext] as it was. *)
Theorem context_is_recorded (registry : GoalType -> CrewConfig)
    (g : GoalType) (q : jsstring) (ctx : Context) (s : State) :
  let s' := snd (executeCrewIn registry g q ctx s) in
  apiKey s' = apiKey s
  /\ (forall key,
        userContext s' !! key
        = if isConfigured (apiKey s)
             && str_eqb key (goalTypeName g ++ lit "_context")
          then Some ctx
          else userContext s !! key).
Proof.
  destruct (executeCrewIn_frame registry g q ctx s) as (Hk & Hu & _ & _).
  cbv zeta. split; [exact Hk|]. intros key. rewrite Hu.
  destruct (isConfigured (apiKey s)); cbn [andb]; [|reflexivity].
  destruct (str_eqb key _) eqn:E.
  - apply str_eqb_eq in E as ->. apply lookup_insert_eq.
  - apply lookup_insert_ne. intros <-. now rewrite str_eqb_refl in E.
Qed.

(** X3. Memory is touched per role: a call to [executeCrewIn] leaves the
    memory of every role that none of the crew's tasks resolves to exactly
    as it was. *)
Theorem other_roles_keep_their_memory (registry : GoalType -> CrewConfig)
    (g : GoalType) (q : jsstring) (ctx : Context) (s : State) (r : jsstring) :
  (forall t a, In t (tasks (registry g)) ->
               agents (registry g) !! task_agent t = Some a ->
               role a <> r) ->
  getAgentMemory r (snd (executeCrewIn registry g q ctx s))
  = getAgentMemory r s.
Proof.
  destruct (executeCrewIn_frame registry g q ctx s) as (_ & _ & _ & Hm).
  exact (Hm r).
Qed.

(** ** A successful task execution *)

Lemma lastN_snoc_last {A} (n : nat) (l : list A) (e : A) :
  (0 < n)%nat -> exists older, lastN n (l ++ [e]) = older ++ [e].
Proof.
  intros Hn. unfold lastN. rewrite length_app. cbn [length].
  exists (drop (length l + 1 - n) l).
  rewrite drop_app_le by lia. reflexivity.
Qed.

(** X4. When the prompt of an agent task can be built and the completion
    call returns, [executeAgentTask] returns the parsed completion, posts
    exactly that prompt, reads the clock once, and stores for the agent's
    role the last ten of its former entries followed by one new entry that
    holds the query, the raw completion text (empty when the content is
    missing), the time read and the context; the new entry comes last and
    the memory of every other role is untouched. *)
Theorem successful_call_appends (a : AgentConfig) (t : Task) (q : jsstring)
    (ctx : Context) (prev : list AgentResponse) (s : State)
    (prompt : jsstring) (content : option jsstring) :
  createAgentPrompt a t q ctx (previousContextOf prev)
    (getAgentMemory (role a) s) = Ret prompt ->
  fetch (length (sent s)) prompt = Choice content ->
  let entry := {| query := q; mem_response := default [] content;
                  timestamp := clock (clockReads s); mem_context := ctx |} in
  exists s',
    executeAgentTask a t q ctx prev s
    = (Ret (parseAgentResponse (default [] content) (role a)), s')
    /\ getAgentMemory (role a) s'
       = lastN 10 (getAgentMemory (role a) s ++ [entry])
    /\ (exists older, getAgentMemory (role a) s' = older ++ [entry])
    /\ (forall r, r <> role a -> getAgentMemory r s' = getAgentMemory r s)
    /\ sent s' = sent s ++ [prompt]
    /\ clockReads s' = S (clockReads s).
Proof.
  intros Hprompt Hreply entry.
  unfold executeAgentTask, bind, gets, lift, try_catch.
  rewrite Hprompt. cbn [fst snd]. unfold callOpenAI. rewrite Hreply.
  unfold now, modify, ret. cbn [fst snd].
  eexists. split; [reflexivity|].
  split; [rewrite getAgentMemory_store, str_eqb_refl; apply pushMemory_lastN|].
  split.
  - rewrite getAgentMemory_store, str_eqb_refl, pushMemory_lastN.
    apply lastN_snoc_last. lia.
  - split; [|split; reflexivity].
    intros r Hr. rewrite getAgentMemory_store.
    destruct (str_eqb (role a) r) eqn:E; [|reflexivity].
    apply str_eqb_eq in E. congruence.
Qed.

(** ** The final message of a configured run *)

(** X5. In a configured run of either crew the final message is the content
    of the reply to the coordination request, the fourth request of the run,
    when that reply carries choices, be it empty or missing (then the final
    message is the empty string); it is the local combiner's message over
    the results in every other case. *)
Theorem final_output_source (g : GoalType) (q : jsstring) (ctx : Context)
    (s : State) :
  isConfigured (apiKey s) = true ->
  exists exec s',
    executeCrew g q ctx s = (Ret exec, s')
    /\ finalOutput exec
       = match fetch (length (sent s) + 3)
                 (coordinationPrompt (results exec) q (goalTypeName g)) with
         | Choice content => default [] content
         | Rejected | NotOk _ _ | BadBody => combineLocally (results exec)
         end
    /\ sent s' !! (length (sent s) + 3)%nat
       = Some (coordinationPrompt (results exec) q (goalTypeName g)).
Proof.
  intros Hcfg.
  unfold executeCrew, executeCrewIn, bind, gets, ret, try_catch, now, modify.
  rewrite Hcfg. cbn [negb].
  match goal with
  | |- context [runTasks ?c ?qq ?x ?p ?r ?st] =>
      destruct (runTasks_prompts c qq x p (crewFor_runnable g ctx) r st)
        as (new & s1 & prompts & Hrun & Hlen & Hsent & Hlenp & _)
  end.
  rewrite Hrun. cbn [app sent store_context] in *.
  assert (Hthree : length (sent s1) = (length (sent s) + 3)%nat).
  { rewrite Hsent, length_app, Hlenp. now destruct g. }
  destruct (coordinateAgentResponses_frame new q (goalTypeName g) s1)
    as (out & s2 & -> & -> & _ & _ & _ & Hs2 & _).
  eexists; eexists. split; [reflexivity|].
  cbn [finalOutput results sent]. rewrite Hthree. split; [reflexivity|].
  rewrite Hs2, <- Hthree. rewrite lookup_app_r by lia.
  now rewrite Nat.sub_diag.
Qed.

(** ** An endpoint that always fails *)

Lemma runTasks_all_fail (cfg : CrewConfig) (q : jsstring) (ctx : Context)
    (pending : list Task) :
  (forall n p, replyFails (fetch n p) = true) ->
  Forall (fun t => exists a text,
            agents cfg !! task_agent t = Some a
            /\ formatContextForAgent ctx (role a) = Ret text) pending ->
  forall (acc : list AgentResponse) (s : State),
  exists new s',
    runTasks cfg q ctx pending acc s = (Ret (acc ++ new), s')
    /\ Forall2 (fun t r => exists a,
                  agents cfg !! task_agent t = Some a
                  /\ r = getFallbackAgentResponse (role a) q ctx) pending new
    /\ agentMemory s' = agentMemory s
    /\ length (sent s') = (length (sent s) + length pending)%nat.
Proof.
  intros Hfail.
  induction 1 as [|t rest (a & text & Ha & Hctx) _ IH]; intros acc s.
  - exists [], s. cbn. unfold ret. rewrite app_nil_r.
    repeat split; [constructor|lia].
  - cbn [runTasks]. rewrite Ha. unfold bind.
    assert (Hexec : exists s1,
               executeAgentTask a t q ctx acc s
               = (Ret (getFallbackAgentResponse (role a) q ctx), s1)
               /\ agentMemory s1 = agentMemory s
               /\ length (sent s1) = S (length (sent s))).
    { unfold executeAgentTask, bind, gets, lift, try_catch, createAgentPrompt.
      rewrite Hctx. cbn [fst snd]. unfold callOpenAI.
      match goal with
      | |- context [fetch ?n ?p] =>
          pose proof (Hfail n p) as Hr; destruct (fetch n p)
      end; try discriminate Hr;
        (eexists; split; [reflexivity|]; split; [reflexivity|];
         cbn; rewrite length_app; cbn; lia). }
    destruct Hexec as (s1 & -> & Hm1 & Hs1).
    destruct (IH (acc ++ [getFallbackAgentResponse (role a) q ctx]) s1)
      as (new & s' & Hrun & Hall & Hm & Hs).
    exists (getFallbackAgentResponse (role a) q ctx :: new), s'.
    rewrite Hrun, <- app_assoc. cbn [app length].
    split; [reflexivity|]. split; [constructor; eauto|].
    split; [congruence|lia].
Qed.

(** X6. When the service is configured and every request fails, a run of
    either crew still returns: it has one response per task, each the
    fallback response labelled with the role of the task's agent (confidence
    0.6), its final message is the local combiner's message over them, four
    requests have been posted and the memory map is what it was. *)
Theorem all_failing_endpoint (g : GoalType) (q : jsstring) (ctx : Context)
    (s : State) :
  isConfigured (apiKey s) = true ->
  (forall n p, replyFails (fetch n p) = true) ->
  exists exec s',
    executeCrew g q ctx s = (Ret exec, s')
    /\ Forall2 (fun t r => exists a,
                  agents (crewFor g) !! task_agent t = Some a
                  /\ r = getFallbackAgentResponse (role a) q ctx
                  /\ confidence r = 0.6%Q)
         (tasks (crewFor g)) (results exec)
    /\ finalOutput exec = combineLocally (results exec)
    /\ agentMemory s' = agentMemory s
    /\ length (sent s') = (length (sent s) + 4)%nat.
Proof.
  intros Hcfg Hfail.
  unfold executeCrew, executeCrewIn, bind, gets, ret, try_catch, now, modify.
  rewrite Hcfg. cbn [negb].
  match goal with
  | |- context [runTasks ?c ?qq ?x ?p ?r ?st] =>
      destruct (runTasks_all_fail c qq x p Hfail (crewFor_runnable g ctx) r st)
        as (new & s1 & Hrun & Hall & Hm & Hs)
  end.
  rewrite Hrun. cbn [app agentMemory sent store_context] in *.
  destruct (coordinateAgentResponses_frame new q (goalTypeName g) s1)
    as (out & s2 & -> & -> & _ & _ & Hm2 & Hs2 & _).
  eexists; eexists. split; [reflexivity|].
  cbn [results finalOutput agentMemory sent].
  split.
  { eapply Forall2_impl; [exact Hall|].
    cbn beta. intros t r (a & Ha & ->). exists a. now repeat split. }
  split.
  { match goal with
    | |- context [fetch ?n ?p] =>
        pose proof (Hfail n p) as Hr; destruct (fetch n p)
    end; try discriminate Hr; reflexivity. }
  split; [congruence|].
  rewrite Hs2, length_app, Hs. cbn. destruct g; cbn; lia.
Qed.

(** ** The memory excerpt of a prompt *)

Lemma slice_from_last {A} (n : nat) (l : list A) :
  (0 < n)%nat -> slice_from (- Z.of_nat n) l = lastN n l.
Proof.
  intros Hn. unfold slice_from, slice, clamp_index, lastN.
  replace (- Z.of_nat n <? 0)%Z with true by (symmetry; apply Z.ltb_lt; lia).
  replace (Z.of_nat (length l) <? 0)%Z with false
    by (symmetry; apply Z.ltb_ge; lia).
  rewrite Z.min_id.
  replace (Z.to_nat (Z.max (Z.of_nat (length l) + - Z.of_nat n) 0))
    with (length l - n)%nat by lia.
  apply take_ge. rewrite length_drop. lia.
Qed.

Lemma lastN_map {A B} (f : A -> B) (n : nat) (l : list A) :
  map f (lastN n l) = lastN n (map f l).
Proof. unfold lastN. now rewrite length_map, <- fmap_drop. Qed.

Lemma lastN_nil_iff {A} (n : nat) (l : list A) :
  (0 < n)%nat -> lastN n l = [] -> l = [].
Proof.
  intros Hn Hl. apply (f_equal length) in Hl. unfold lastN in Hl.
  rewrite length_drop in Hl. cbn in Hl.
  destruct l; [reflexivity|]. cbn in Hl. lia.
Qed.

(** X7. The memory excerpt of a prompt shows the last three entries of the
    role's memory, fewer when fewer are stored, and of each entry only the
    query and the response: two memories whose last three entries agree on
    these two fields give the same prompt; in particular a memory gives the
    same prompt as its last three entries alone. *)
Theorem prompt_reads_last_three_entries (a : AgentConfig) (t : Task)
    (q : jsstring) (ctx : Context) (previousContext : jsstring)
    (mem mem' : list MemoryEntry) :
  (map (fun m => (query m, mem_response m)) (lastN 3 mem)
   = map (fun m => (query m, mem_response m)) (lastN 3 mem') ->
   createAgentPrompt a t q ctx previousContext mem
   = createAgentPrompt a t q ctx previousContext mem')
  /\ createAgentPrompt a t q ctx previousContext mem
     = createAgentPrompt a t q ctx previousContext (lastN 3 mem)
  /\ memoryContext mem
     = match mem with
       | [] => []
       | _ :: _ =>
           [newline; newline]
           ++ lit "Previous interactions with this user:" ++ [newline]
           ++ join [newline; newline] (map memoryLine (lastN 3 mem))
       end.
Proof.
  assert (Hshape : forall m : list MemoryEntry,
             memoryContext m
             = match m with
               | [] => []
               | _ :: _ =>
                   [newline; newline]
                   ++ lit "Previous interactions with this user:" ++ [newline]
                   ++ join [newline; newline] (map memoryLine (lastN 3 m))
               end).
  { intros m. unfold memoryContext.
    change (-3)%Z with (- Z.of_nat 3)%Z.
    rewrite (slice_from_last 3 m) by lia. now destruct m. }
  assert (Hsame : forall m m' : list MemoryEntry,
             map (fun e => (query e, mem_response e)) (lastN 3 m)
             = map (fun e => (query e, mem_response e)) (lastN 3 m') ->
             memoryContext m = memoryContext m').
  { intros m m' Heq. rewrite !Hshape.
    assert (Hlines : map memoryLine (lastN 3 m) = map memoryLine (lastN 3 m')).
    { revert Heq. generalize (lastN 3 m) (lastN 3 m').
      induction l as [|e l IH]; intros [|e' l'] E; try discriminate E;
        [reflexivity|].
      cbn in E. injection E as Hq Hr Hrest. cbn [map]. unfold memoryLine at 1 3.
      rewrite Hq, Hr. f_equal. now apply IH. }
    rewrite Hlines.
    destruct m as [|e m], m' as [|e' m']; try reflexivity.
    - symmetry in Heq. apply map_eq_nil in Heq.
      apply lastN_nil_iff in Heq; [discriminate|lia].
    - apply map_eq_nil in Heq.
      apply lastN_nil_iff in Heq; [discriminate|lia]. }
  split; [|split; [|apply Hshape]].
  - intros Heq. unfold createAgentPrompt. now rewrite (Hsame mem mem' Heq).
  - unfold createAgentPrompt. rewrite (Hsame mem (lastN 3 mem)); [reflexivity|].
    now rewrite (lastN_short 3 (lastN 3 mem)) by apply lastN_length.
Qed.

(** ** When the context block cannot be rendered *)

(** X8. [formatContextForAgent] throws in one situation only: the role
    contains none of [sleep] but one of [activity], [movement], [wellness]
    (lower case), and the context's [preferredWalkingTimes] is a boolean, a
    number or a string, which has no [join]. It returns for every other role
    and context; a role containing [sleep] always gets the sleep profile. *)
Theorem context_block_throws_iff (ctx : Context) (agentRole : jsstring) :
  (formatContextForAgent ctx agentRole = Throw
   <-> includes (lit "sleep") agentRole = false
       /\ includes (lit "activity") agentRole
          || includes (lit "movement") agentRole
          || includes (lit "wellness") agentRole = true
       /\ match get ctx (lit "preferredWalkingTimes") with
          | JBool _ | JNumber _ | JString _ => True
          | JUndefined | JNull | JArray _ => False
          end)
  /\ (includes (lit "sleep") agentRole = true ->
      exists profile,
        formatContextForAgent ctx agentRole = Ret profile
        /\ startsWith ([newline] ++ lit "Sleep Profile:") profile = true).
Proof.
  unfold formatContextForAgent. split.
  - destruct (includes (lit "sleep") agentRole).
    { split; [discriminate|]. now intros (Hs & _). }
    destruct (includes (lit "activity") agentRole
              || includes (lit "movement") agentRole
              || includes (lit "wellness") agentRole).
    2:{ split; [discriminate|]. now intros (_ & Hp & _). }
    destruct (get ctx (lit "preferredWalkingTimes")); cbn [join_opt];
      split; try discriminate; try (now intros (_ & _ & [])); auto.
  - intros ->. eexists. split; [reflexivity|]. reflexivity.
Qed.

(** X9. [executeAgentTask] throws exactly when the context block of its
    prompt cannot be rendered; it then has posted no request, read no clock
    and changed nothing. In every other case it returns a response whose
    agent is the role of its agent. *)
Theorem task_throws_only_on_context (a : AgentConfig) (t : Task)
    (q : jsstring) (ctx : Context) (prev : list AgentResponse) (s : State) :
  match formatContextForAgent ctx (role a) with
  | Throw => executeAgentTask a t q ctx prev s = (Throw, s)
  | Ret _ =>
      exists r s',
        executeAgentTask a t q ctx prev s = (Ret r, s') /\ agent r = role a
  end.
Proof.
  unfold executeAgentTask, bind, gets, lift, try_catch, createAgentPrompt.
  destruct (formatContextForAgent ctx (role a)) as [text|]; cbn [fst snd];
    [|reflexivity].
  unfold callOpenAI.
  destruct (fetch _ _); cbn [fst snd]; eexists; eexists;
    (split; [reflexivity|reflexivity]).
Qed.

(** ** The context object and the configured crews *)

Lemma plainRole_context (ctx : Context) (agentRole : jsstring) :
  plainRole agentRole = true ->
  formatContextForAgent ctx agentRole
  = Ret (lit "Context not available for this agent type.").
Proof.
  unfold plainRole, formatContextForAgent. intros Hp.
  apply andb_true_iff in Hp as [Hs Ho].
  apply negb_true_iff in Hs, Ho. now rewrite Hs, Ho.
Qed.

Lemma crewFor_plain (g : GoalType) :
  Forall (fun t => exists a,
            agents (crewFor g) !! task_agent t = Some a
            /\ plainRole (role a) = true) (tasks (crewFor g)).
Proof.
  destruct g; cbn [crewFor tasks getSleepTrackingCrew getStepsTrackingCrew];
    repeat constructor; eexists; (split; [vm_compute; reflexivity|]);
    vm_compute; reflexivity.
Qed.

Lemma memoryContext_ext (m m' : list MemoryEntry) :
  map entryText m = map entryText m' -> memoryContext m = memoryContext m'.
Proof.
  intros Heq. unfold memoryContext.
  assert (Hlen : length m = length m').
  { apply (f_equal length) in Heq. now rewrite !length_map in Heq. }
  rewrite Hlen. destruct (0 <? length m')%nat; [|reflexivity].
  do 3 f_equal. unfold slice_from, slice. rewrite Hlen.
  set (k := Z.to_nat _). set (j := Z.to_nat _).
  clearbody k j. clear Hlen.
  assert (Hlines : map memoryLine m = map memoryLine m').
  { revert m' Heq. induction m as [|e m IH]; intros [|e' m'] E;
      try discriminate E; [reflexivity|].
    cbn in E. injection E as Hq Hr _ Hrest. cbn [map].
    unfold memoryLine at 1 3. rewrite Hq, Hr. f_equal. now apply IH. }
  change (map memoryLine (take k (drop j m)))
    with (memoryLine <$> take k (drop j m)).
  change (map memoryLine (take k (drop j m')))
    with (memoryLine <$> take k (drop j m')).
  rewrite !fmap_take, !fmap_drop.
  change (memoryLine <$> m) with (map memoryLine m).
  change (memoryLine <$> m') with (map memoryLine m').
  now rewrite Hlines.
Qed.

Lemma pushMemory_ext (m m' : list MemoryEntry) (e e' : MemoryEntry) :
  map entryText m = map entryText m' ->
  entryText e = entryText e' ->
  map entryText (pushMemory m e) = map entryText (pushMemory m' e').
Proof.
  intros Hm He. rewrite !pushMemory_lastN, !lastN_map, !map_app.
  cbn [map]. now rewrite Hm, He.
Qed.

Lemma executeAgentTask_sim (a : AgentConfig) (t : Task) (q : jsstring)
    (ctx1 ctx2 : Context) (prev : list AgentResponse) (s1 s2 : State) :
  plainRole (role a) = true ->
  sameButContexts s1 s2 ->
  exists r s1' s2',
    executeAgentTask a t q ctx1 prev s1 = (Ret r, s1')
    /\ executeAgentTask a t q ctx2 prev s2 = (Ret r, s2')
    /\ sameButContexts s1' s2'.
Proof.
  intros Hplain (Hk & Hsent & Hclock & Hmem).
  unfold executeAgentTask, bind, gets, lift, try_catch, createAgentPrompt.
  rewrite !(plainRole_context _ _ Hplain). cbn [fst snd].
  rewrite (memoryContext_ext _ _ (Hmem (role a))).
  unfold callOpenAI. rewrite Hsent.
  destruct (fetch _ _) as [| | |content]; cbn [fst snd];
    try (eexists; eexists; eexists; split; [reflexivity|];
         split; [reflexivity|];
         repeat split; cbn; [exact Hk|now rewrite Hsent|exact Hclock|exact Hmem]).
  unfold now, modify, ret. cbn [fst snd].
  eexists; eexists; eexists. split; [reflexivity|]. split; [reflexivity|].
  repeat split; cbn [apiKey sent clockReads store_memory log_request];
    [exact Hk|now rewrite Hsent|now rewrite Hclock|].
  intros r. rewrite !getAgentMemory_store.
  destruct (str_eqb (role a) r); [|apply Hmem].
  apply pushMemory_ext; [apply Hmem|].
  unfold entryText. cbn. now rewrite Hclock.
Qed.

Lemma runTasks_sim (cfg : CrewConfig) (q : jsstring) (ctx1 ctx2 : Context)
    (pending : list Task) :
  Forall (fun t => exists a,
            agents cfg !! task_agent t = Some a
            /\ plainRole (role a) = true) pending ->
  forall (acc : list AgentResponse) (s1 s2 : State),
    sameButContexts s1 s2 ->
    exists rs s1' s2',
      runTasks cfg q ctx1 pending acc s1 = (Ret rs, s1')
      /\ runTasks cfg q ctx2 pending acc s2 = (Ret rs, s2')
      /\ sameButContexts s1' s2'.
Proof.
  induction 1 as [|t rest (a & Ha & Hplain) _ IH]; intros acc s1 s2 Hsame.
  - exists acc, s1, s2. split; [reflexivity|split; [reflexivity|exact Hsame]].
  - cbn [runTasks]. rewrite Ha. unfold bind.
    destruct (executeAgentTask_sim a t q ctx1 ctx2 acc s1 s2 Hplain Hsame)
      as (r & s1' & s2' & -> & -> & Hsame').
    apply IH, Hsame'.
Qed.

(** X10. For every task of both crews the role of the task's agent matches
    none of the lower-case patterns of [formatContextForAgent]: whatever the
    context, the context block of its prompt is the text [Context not
    available for this agent type.], and the prompt is the same for any two
    contexts. *)
Theorem crew_prompts_carry_no_context (g : GoalType) :
  Forall (fun t => exists a,
            agents (crewFor g) !! task_agent t = Some a
            /\ forall (ctx ctx' : Context) (q previousContext : jsstring)
                      (mem : list MemoryEntry),
                 formatContextForAgent ctx (role a)
                 = Ret (lit "Context not available for this agent type.")
                 /\ createAgentPrompt a t q ctx previousContext mem
                    = createAgentPrompt a t q ctx' previousContext mem)
         (tasks (crewFor g)).
Proof.
  eapply Forall_impl; [apply crewFor_plain|].
  cbn beta. intros t (a & Ha & Hplain). exists a. split; [exact Ha|].
  intros ctx ctx' q pc mem. split; [now apply plainRole_context|].
  unfold createAgentPrompt. now rewrite !(plainRole_context _ _ Hplain).
Qed.

(** X11. A configured run of either crew does not depend on the context
    object: from two states that differ at most in the contexts they have
    stored, runs with the same query and two different contexts return the
    same execution (responses, final message, elapsed time) and post the
    same requests, and the states they reach again differ at most in stored
    contexts. *)
Theorem configured_run_ignores_context (g : GoalType) (q : jsstring)
    (ctx1 ctx2 : Context) (s1 s2 : State) :
  sameButContexts s1 s2 ->
  isConfigured (apiKey s1) = true ->
  fst (executeCrew g q ctx1 s1) = fst (executeCrew g q ctx2 s2)
  /\ sent (snd (executeCrew g q ctx1 s1)) = sent (snd (executeCrew g q ctx2 s2))
  /\ sameButContexts (snd (executeCrew g q ctx1 s1))
       (snd (executeCrew g q ctx2 s2)).
Proof.
  intros Hsame Hcfg.
  assert (Hcfg2 : isConfigured (apiKey s2) = true)
    by (destruct Hsame as (<- & _); exact Hcfg).
  unfold executeCrew, executeCrewIn, bind, gets, ret, try_catch, now, modify.
  rewrite Hcfg, Hcfg2. cbn [negb].
  match goal with
  | |- context [runTasks ?c ?qq ctx1 ?p ?r ?st1] =>
      match goal with
      | |- context [runTasks c qq ctx2 p r ?st2] =>
          assert (Hstart : sameButContexts st1 st2)
      end
  end.
  { destruct Hsame as (Hk & Hs & Hc & Hm).
    repeat split; cbn; [exact Hk|exact Hs|now rewrite Hc|exact Hm]. }
  match goal with
  | H : sameButContexts ?st1 ?st2 |- context [runTasks ?c ?qq ctx1 ?p ?r ?st1] =>
      destruct (runTasks_sim c qq ctx1 ctx2 p (crewFor_plain g) r st1 st2 H)
        as (rs & s1' & s2' & -> & -> & (Hk' & Hs' & Hc' & Hm'))
  end.
  destruct (coordinateAgentResponses_frame rs q (goalTypeName g) s1')
    as (out1 & t1 & -> & -> & Hk1 & _ & Hm1 & Hs1 & Hc1).
  destruct (coordinateAgentResponses_frame rs q (goalTypeName g) s2')
    as (out2 & t2 & -> & -> & Hk2 & _ & Hm2 & Hs2 & Hc2).
  cbn [fst snd sent]. destruct Hsame as (_ & _ & Hclock & _).
  rewrite Hs', Hc1, Hc2, Hc', Hclock.
  split; [reflexivity|]. split; [now rewrite Hs1, Hs2, Hs'|].
  split; [cbn [apiKey]; congruence|].
  split; [cbn [sent]; now rewrite Hs1, Hs2, Hs'|].
  split; [cbn [clockReads]; congruence|].
  intros r. unfold getAgentMemory in *. cbn [agentMemory].
  rewrite Hm1, Hm2. apply Hm'.
Qed.

(** ** Clearing the memory *)

(** X12. [clearAgentMemory] with a non-empty role empties the memory of
    that role and keeps every other role's; without a role, or with the
    empty string as role, it empties every role's memory. It touches neither
    the key, the stored contexts nor the world. After it, the memory of a
    cleared role is again the last ten entries appended since. *)
Theorem clearAgentMemory_effect (agentRole : option jsstring) (s : State)
    (r : jsstring) :
  getAgentMemory r (clearAgentMemory agentRole s)
  = match agentRole with
    | Some x => if is_empty x || str_eqb x r then [] else getAgentMemory r s
    | None => []
    end
  /\ apiKey (clearAgentMemory agentRole s) = apiKey s
  /\ userContext (clearAgentMemory agentRole s) = userContext s
  /\ sent (clearAgentMemory agentRole s) = sent s
  /\ (forall cs,
        getAgentMemory r (runCalls cs (clearAgentMemory (Some r) s))
        = lastN 10 (insertedFor r cs (clearAgentMemory (Some r) s))).
Proof.
  assert (Hget : getAgentMemory r (clearAgentMemory agentRole s)
                 = match agentRole with
                   | Some x => if is_empty x || str_eqb x r then []
                               else getAgentMemory r s
                   | None => []
                   end).
  { unfold getAgentMemory, clearAgentMemory. cbn [agentMemory].
    destruct agentRole as [x|]; [|now rewrite lookup_empty].
    destruct (is_empty x); cbn [orb]; [now rewrite lookup_empty|].
    destruct (str_eqb x r) eqn:E.
    - apply str_eqb_eq in E as ->. now rewrite lookup_delete_eq.
    - rewrite lookup_delete_ne; [reflexivity|].
      intros ->. now rewrite str_eqb_refl in E. }
  split; [exact Hget|]. repeat split.
  intros cs.
  change (insertedFor r cs (clearAgentMemory (Some r) s))
    with ([] ++ insertedFor r cs (clearAgentMemory (Some r) s)).
  apply runCalls_memory.
  unfold getAgentMemory, clearAgentMemory. cbn [agentMemory].
  destruct (is_empty r); [now rewrite lookup_empty|].
  now rewrite lookup_delete_eq.
Qed.

(** ** What the parser can return *)

Lemma scan_invariant (f : Field) (Q : list jsstring -> Prop)
    (lines ls : list jsstring) :
  (forall line, Q (bulletsAfter lines line (Z.of_nat (windowOf f) + 1))) ->
  forall acc, Q (fieldOf f acc) ->
              Q (fieldOf f (fold_left (scanLine lines) ls acc)).
Proof.
  intros Hwindow. induction ls as [|l ls IH]; intros acc Hacc; [exact Hacc|].
  cbn [fold_left]. apply IH. rewrite scanLine_field.
  destruct (headingOf f l); [apply Hwindow|exact Hacc].
Qed.

Lemma indexOf_lower (x : jsstring) (l : list jsstring) : (-1 <= indexOf x l)%Z.
Proof.
  induction l as [|y l IH]; cbn [indexOf]; [lia|].
  destruct (str_eqb y x); [lia|]. destruct (indexOf x l <? 0)%Z; lia.
Qed.

Lemma slice_length {A} (a b : Z) (l : list A) :
  (0 <= a)%Z -> (a <= b)%Z -> (length (slice a b l) <= Z.to_nat (b - a))%nat.
Proof.
  intros Ha Hab. unfold slice, clamp_index.
  replace (a <? 0)%Z with false by (symmetry; apply Z.ltb_ge; lia).
  replace (b <? 0)%Z with false by (symmetry; apply Z.ltb_ge; lia).
  rewrite length_take. lia.
Qed.

Lemma bulletsAfter_length (lines : list jsstring) (line : jsstring) (w : nat) :
  (length (bulletsAfter lines line (Z.of_nat w + 1)) <= w)%nat.
Proof.
  unfold bulletsAfter. rewrite length_map.
  pose proof (indexOf_lower line lines) as Hi.
  etransitivity; [apply List.filter_length_le|].
  etransitivity; [apply slice_length; lia|]. lia.
Qed.

(** X13. Whatever the completion text, a parsed response holds at most
    five recommendations, three insights, three next steps and three action
    items. *)
Theorem parsed_lists_are_bounded (text agentRole : jsstring) :
  (length (recommendations (parseAgentResponse text agentRole)) <= 5)%nat
  /\ (length (insights (parseAgentResponse text agentRole)) <= 3)%nat
  /\ (length (nextSteps (parseAgentResponse text agentRole)) <= 3)%nat
  /\ (length (actionItems (parseAgentResponse text agentRole)) <= 3)%nat.
Proof.
  assert (Hfield : forall f,
             (length (responseField f (parseAgentResponse text agentRole))
              <= windowOf f)%nat).
  { intros f. rewrite responseField_parse.
    apply (scan_invariant f (fun items => (length items <= windowOf f)%nat)).
    - intros line. apply bulletsAfter_length.
    - destruct f; cbn; lia. }
  split; [exact (Hfield Recommendations)|].
  split; [exact (Hfield Insights)|].
  split; [exact (Hfield NextSteps)|].
  cbn [parseAgentResponse actionItems length Nat.eqb].
  rewrite (slice_0_take 3), length_take. lia.
Qed.

Lemma drop_ws_suffix (s : jsstring) : exists a, s = a ++ drop_ws s.
Proof.
  induction s as [|c s (a & IH)]; [now exists []|].
  cbn [drop_ws]. destruct (is_ws c); [|now exists []].
  exists (c :: a). cbn. now rewrite <- IH.
Qed.

Lemma trim_infix (s : jsstring) : exists a b, s = a ++ trim s ++ b.
Proof.
  destruct (drop_ws_suffix s) as (a & Ha).
  destruct (drop_ws_suffix (rev (drop_ws s))) as (b & Hb).
  exists a, (rev b). unfold trim.
  rewrite <- rev_app_distr, <- Hb, rev_involutive. exact Ha.
Qed.

Lemma trim_idem (s : jsstring) : trim (trim s) = trim s.
Proof.
  assert (Hfix : drop_ws (trim s) = trim s).
  { unfold trim. destruct (drop_ws s) as [|c x] eqn:Hs; [reflexivity|].
    pose proof (drop_ws_head s x c Hs) as Hc. cbn [rev].
    rewrite (drop_ws_snoc _ c Hc), rev_app_distr. cbn. now rewrite Hc. }
  unfold trim at 1. rewrite Hfix. unfold trim.
  now rewrite rev_involutive, drop_ws_idem.
Qed.

Lemma stripMarker_trimmed (l : jsstring) : trim (stripMarker l) = stripMarker l.
Proof. unfold stripMarker. apply trim_idem. Qed.

Lemma stripMarker_infix (l : jsstring) : includes (stripMarker l) l = true.
Proof.
  unfold stripMarker. destruct l as [|c r].
  - destruct (trim_infix []) as (a & b & H'). rewrite H' at 2.
    apply includes_middle.
  - destruct ((c =? hyphen) || (c =? bullet))%N.
    + destruct (drop_ws_suffix r) as (a & Ha).
      destruct (trim_infix (drop_ws r)) as (a' & b' & Hb).
      rewrite Ha at 2. rewrite Hb at 2.
      replace (c :: a ++ a' ++ trim (drop_ws r) ++ b')
        with ((c :: a ++ a') ++ trim (drop_ws r) ++ b')
        by (cbn; now rewrite <- app_assoc).
      apply includes_middle.
    + destruct (trim_infix (c :: r)) as (a & b & H'). rewrite H' at 2.
      apply includes_middle.
Qed.

Lemma In_slice {A} (x : A) (a b : Z) (l : list A) : In x (slice a b l) -> In x l.
Proof.
  unfold slice. intros Hin. apply list_elem_of_In in Hin.
  apply list_elem_of_In.
  eapply subseteq_drop, subseteq_take. exact Hin.
Qed.

Lemma startsWith_prefix (l u : jsstring) :
  startsWith l u = true -> exists rest, u = l ++ rest.
Proof.
  revert u; induction l as [|d l IH]; intros u Hu; [now exists u|].
  destruct u as [|e u]; [discriminate|]. cbn in Hu.
  apply andb_true_iff in Hu as [Hde Hu]. apply N.eqb_eq in Hde as ->.
  destruct (IH u Hu) as (rest & ->). now exists rest.
Qed.

Lemma includes_trans (x l s : jsstring) :
  includes x l = true -> includes l s = true -> includes x s = true.
Proof.
  intros Hx. induction s as [|c s IH]; intros Hs; cbn [includes] in Hs;
    apply orb_true_iff in Hs as [Hs|Hs]; try discriminate.
  - destruct l; [|discriminate]. exact Hx.
  - destruct (startsWith_prefix l (c :: s) Hs) as (rest & ->).
    now apply includes_app_l.
  - cbn [includes]. rewrite (IH Hs). apply orb_true_r.
Qed.

Lemma includes_refl (s : jsstring) : includes s s = true.
Proof. rewrite <- (app_nil_r s) at 2. apply includes_prefix. Qed.

(** X14. Whatever the completion text, every item the parser extracts, in
    any of its lists, is trimmed (it has no leading or trailing whitespace)
    and occurs verbatim in the completion text: the parser never makes up
    text. *)
Theorem parsed_items_come_from_the_text (text agentRole : jsstring) :
  let r := parseAgentResponse text agentRole in
  Forall (fun item => trim item = item /\ includes item text = true)
    (recommendations r ++ insights r ++ nextSteps r ++ actionItems r).
Proof.
  cbv zeta.
  assert (Hfield : forall f,
             Forall (fun item => trim item = item /\ includes item text = true)
               (responseField f (parseAgentResponse text agentRole))).
  { intros f. rewrite responseField_parse.
    apply (scan_invariant f
             (Forall (fun item => trim item = item
                                  /\ includes item text = true)));
      [|destruct f; constructor].
    intros line. unfold bulletsAfter. apply List.Forall_forall.
    intros item Hin. apply in_map_iff in Hin as (l & <- & Hl).
    apply List.filter_In in Hl as [Hl _]. apply In_slice in Hl.
    unfold responseLines in Hl. apply List.filter_In in Hl as [Hl _].
    split; [apply stripMarker_trimmed|].
    apply (includes_trans _ l); [apply stripMarker_infix|].
    apply (split_line_includes l newline text l Hl), includes_refl. }
  rewrite !Forall_app.
  split; [exact (Hfield Recommendations)|].
  split; [exact (Hfield Insights)|].
  split; [exact (Hfield NextSteps)|].
  cbn [parseAgentResponse actionItems recommendations length Nat.eqb].
  rewrite (slice_0_take 3).
  pose proof (Hfield Recommendations) as Hrec.
  rewrite responseField_parse in Hrec. cbn [fieldOf] in Hrec.
  apply List.Forall_forall. intros item Hin.
  apply (proj1 (List.Forall_forall _ _) Hrec).
  apply list_elem_of_In in Hin. apply list_elem_of_In.
  now apply (subseteq_take 3 _).
Qed.

(** ** Which heading and which lines decide a field *)

Lemma lastHeading_In (f : Field) (ls : list jsstring) (h : jsstring) :
  lastHeading f ls = Some h -> In h ls /\ headingOf f h = true.
Proof.
  induction ls as [|l ls IH]; cbn [lastHeading]; [discriminate|].
  destruct (lastHeading f ls) as [h'|].
  - intros E; injection E as ->. destruct (IH eq_refl). split; [now right|easy].
  - destruct (headingOf f l) eqn:Hl; [|discriminate].
    intros E; injection E as ->. split; [now left|exact Hl].
Qed.

Lemma afterFirst_split (x : jsstring) (ls : list jsstring) :
  In x ls ->
  exists pre, ls = pre ++ x :: afterFirst x ls /\ Forall (fun y => y <> x) pre.
Proof.
  induction ls as [|y ls IH]; [easy|]. intros Hin. cbn [afterFirst].
  destruct (str_eqb y x) eqn:E.
  - apply str_eqb_eq in E as ->. exists []. split; [reflexivity|constructor].
  - assert (Hne : y <> x) by (intros ->; now rewrite str_eqb_refl in E).
    destruct Hin as [->|Hin]; [contradiction|].
    destruct (IH Hin) as (pre & Hls & Hpre).
    exists (y :: pre). split; [cbn; now rewrite <- Hls|now constructor].
Qed.

Lemma scan_lastHeading (f : Field) (lines ls : list jsstring) :
  forall acc,
    fieldOf f (fold_left (scanLine lines) ls acc)
    = match lastHeading f ls with
      | Some h => bulletsAfter lines h (Z.of_nat (windowOf f) + 1)
      | None => fieldOf f acc
      end.
Proof.
  induction ls as [|l ls IH]; intros acc; cbn [fold_left lastHeading];
    [reflexivity|].
  rewrite IH. destruct (lastHeading f ls); [reflexivity|].
  rewrite scanLine_field. now destruct (headingOf f l).
Qed.

(** X15. Each list of a parsed response is decided by one line: the last
    non-blank line of the text that is a heading of the field. The list
    holds the bulleted lines, without marker, among the lines of the window
    that follows the first non-blank line equal to that heading, so that a
    heading repeated word for word reads the lines after its first
    occurrence; without a heading line the list is empty. *)
Theorem field_is_decided_by_last_heading (f : Field)
    (text agentRole : jsstring) :
  responseField f (parseAgentResponse text agentRole)
  = match lastHeading f (responseLines text) with
    | Some h =>
        map stripMarker
          (List.filter isBulleted
             (take (windowOf f) (afterFirst h (responseLines text))))
    | None => []
    end.
Proof.
  rewrite responseField_parse, scan_lastHeading.
  destruct (lastHeading f (responseLines text)) as [h|] eqn:Hlast;
    [|now destruct f].
  destruct (lastHeading_In f _ h Hlast) as [Hin _].
  destruct (afterFirst_split h _ Hin) as (pre & Hlines & Hpre).
  rewrite Hlines at 1. now apply bulletsAfter_fresh.
Qed.

(** X16. A bulleted line that starts with whitespace keeps its marker: the
    marker pattern is anchored at the start of the untrimmed line, so what
    is collected for such a line is the trimmed line, which still begins
    with [-] or [•]. *)
Theorem indented_bullet_keeps_marker (c : N) (rest : jsstring) :
  is_ws c = true ->
  isBulleted (c :: rest) = true ->
  stripMarker (c :: rest) = trim (c :: rest)
  /\ startsWith [hyphen] (stripMarker (c :: rest))
     || startsWith [bullet] (stripMarker (c :: rest)) = true.
Proof.
  intros Hc Hb.
  assert (Hs : stripMarker (c :: rest) = trim (c :: rest)).
  { unfold stripMarker.
    destruct (c =? hyphen)%N eqn:E1;
      [apply N.eqb_eq in E1 as ->; discriminate Hc|].
    destruct (c =? bullet)%N eqn:E2;
      [apply N.eqb_eq in E2 as ->; discriminate Hc|].
    reflexivity. }
  split; [exact Hs|]. rewrite Hs. exact Hb.
Qed.

(** ** The whole-crew fallback and its inputs *)

(** X17. The whole-crew fallback never reads the user query, and reads of
    the context only [targetSleepHours] in the sleep domain and
    [currentSteps], [remainingSteps] and [dailyStepTarget] in the steps
    domain: executions for contexts that agree on these properties are
    equal, and the final message is the same text for every query and every
    context of a domain. *)
Theorem fallback_reads_only_the_targets :
  (forall (g : GoalType) (q q' : jsstring) (ctx ctx' : Context),
      finalOutput (getFallbackCrewExecution g q ctx)
      = finalOutput (getFallbackCrewExecution g q' ctx'))
  /\ (forall (q q' : jsstring) (ctx ctx' : Context),
         ctx !! lit "targetSleepHours" = ctx' !! lit "targetSleepHours" ->
         getFallbackCrewExecution sleep_tracking q ctx
         = getFallbackCrewExecution sleep_tracking q' ctx')
  /\ (forall (q q' : jsstring) (ctx ctx' : Context),
         ctx !! lit "currentSteps" = ctx' !! lit "currentSteps" ->
         ctx !! lit "remainingSteps" = ctx' !! lit "remainingSteps" ->
         ctx !! lit "dailyStepTarget" = ctx' !! lit "dailyStepTarget" ->
         getFallbackCrewExecution daily_steps q ctx
         = getFallbackCrewExecution daily_steps q' ctx').
Proof.
  split; [|split].
  - intros g q q' ctx ctx'. destruct g; reflexivity.
  - intros q q' ctx ctx' Hh.
    unfold getFallbackCrewExecution, getFallbackResponses, get.
    rewrite Hh. reflexivity.
  - intros q q' ctx ctx' Hc Hr Hd.
    unfold getFallbackCrewExecution, getFallbackResponses, get.
    rewrite Hc, Hr, Hd. reflexivity.
Qed.

(** ** Elapsed time *)

(** X18. The elapsed time of an execution is either the nominal 500 of the
    whole-crew fallback or the difference between a clock reading made after
    the run and the reading made on entry; with a clock that never goes
    back it is not negative. *)
Theorem elapsed_time_is_not_negative (registry : GoalType -> CrewConfig)
    (g : GoalType) (q : jsstring) (ctx : Context) (s : State) :
  (forall m n, (m <= n)%nat -> (clock m <= clock n)%Z) ->
  exists exec s',
    executeCrewIn registry g q ctx s = (Ret exec, s')
    /\ (0 <= executionTime exec)%Z
    /\ (executionTime exec = 500%Z
        \/ exists n, (clockReads s < n)%nat
                     /\ executionTime exec
                        = (clock n - clock (clockReads s))%Z).
Proof.
  intros Hmono.
  unfold executeCrewIn, bind, gets, ret, try_catch, now, modify.
  destruct (isConfigured (apiKey s)); cbn [negb].
  2:{ eexists; eexists. split; [reflexivity|]. cbn. split; [lia|now left]. }
  match goal with
  | |- context [runTasks ?c ?qq ?x ?p ?r ?st] =>
      destruct (runTasks c qq x p r st) as [[rs|] s1] eqn:Hrun;
      destruct (runTasks_frame c qq x p r st _ s1 Hrun)
        as (_ & _ & _ & Hclock & _)
  end; cbn [clockReads store_context] in Hclock.
  2:{ eexists; eexists. split; [reflexivity|]. cbn. split; [lia|now left]. }
  destruct (coordinateAgentResponses_frame rs q (goalTypeName g) s1)
    as (out & s2 & -> & _ & _ & _ & _ & _ & Hc2).
  eexists; eexists. split; [reflexivity|]. cbn [executionTime].
  rewrite Hc2. split.
  - pose proof (Hmono (clockReads s) (clockReads s1)). lia.
  - right. exists (clockReads s1). split; [lia|reflexivity].
Qed.

(** ** The coordination prompt *)

Lemma includes_join (sep x : jsstring) (ls : list jsstring) :
  In x ls -> includes x (join sep ls) = true.
Proof.
  induction ls as [|l ls IH]; [easy|].
  intros [->|Hin].
  - destruct ls; [apply includes_refl|apply includes_prefix].
  - destruct ls as [|l' ls]; [easy|].
    change (join sep (l :: l' :: ls)) with (l ++ sep ++ join sep (l' :: ls)).
    now apply includes_app_r, includes_app_r, IH.
Qed.

(** X19. The coordination prompt embeds the query and, for every agent
    response handed to it, the agent's name, its full response text and each
    of its recommendations. *)
Theorem coordination_prompt_embeds_responses (rs : list AgentResponse)
    (q g : jsstring) :
  includes q (coordinationPrompt rs q g) = true
  /\ Forall (fun r =>
               includes (agent r) (coordinationPrompt rs q g) = true
               /\ includes (response r) (coordinationPrompt rs q g) = true
               /\ Forall (fun rec =>
                            includes (lit "- " ++ rec)
                              (coordinationPrompt rs q g) = true)
                    (recommendations r)) rs.
Proof.
  assert (Hblock : forall r x, In r rs -> includes x (agentBlock r) = true ->
                               includes x (coordinationPrompt rs q g) = true).
  { intros r x Hr Hx. apply (includes_trans x (agentBlock r)); [exact Hx|].
    apply (includes_trans _ (join [newline; newline] (map agentBlock rs))).
    - apply includes_join, in_map, Hr.
    - unfold coordinationPrompt. apply includes_unlines.
      do 6 right. left. reflexivity. }
  split.
  - unfold coordinationPrompt.
    eapply includes_trans.
    2:{ apply includes_unlines. do 3 right. left. reflexivity. }
    do 4 apply includes_app_r. apply includes_prefix.
  - apply List.Forall_forall. intros r Hr. split; [|split].
    + apply (Hblock r _ Hr). unfold agentBlock.
      apply (includes_trans _ (lit "### " ++ agent r)).
      * apply includes_app_r, includes_refl.
      * apply includes_unlines. right. left. reflexivity.
    + apply (Hblock r _ Hr). unfold agentBlock.
      apply includes_unlines. do 2 right. left. reflexivity.
    + apply List.Forall_forall. intros rec Hrec.
      apply (Hblock r _ Hr). unfold agentBlock.
      apply (includes_trans _ (unlines (map (fun x => lit "- " ++ x)
                                          (recommendations r)))).
      * apply includes_unlines.
        apply (in_map (fun x => lit "- " ++ x)), Hrec.
      * apply includes_unlines. do 5 right. left. reflexivity.
Qed.

(** ** What is remembered is what was returned *)

Lemma executeAgentTask_outcome (a : AgentConfig) (t : Task) (q : jsstring)
    (ctx : Context) (prev : list AgentResponse) (s : State)
    (r : AgentResponse) (s1 : State) :
  executeAgentTask a t q ctx prev s = (Ret r, s1) ->
  (confidence r = 0.85%Q
   /\ exists older stamp,
        getAgentMemory (role a) s1
        = older ++ [ {| query := q; mem_response := response r;
                        timestamp := stamp; mem_context := ctx |} ])
  \/ (confidence r = 0.6%Q /\ agentMemory s1 = agentMemory s).
Proof.
  unfold executeAgentTask, bind, gets, lift, try_catch.
  destruct (createAgentPrompt _ _ _ _ _ _) as [prompt|]; cbn [fst snd];
    [|discriminate].
  unfold callOpenAI.
  destruct (fetch _ _) as [| | |content]; cbn [fst snd];
    try (intros E; injection E as <- <-; right; split; reflexivity).
  unfold now, modify, ret. cbn [fst snd].
  intros E; injection E as <- <-. left. split; [reflexivity|].
  rewrite getAgentMemory_store, str_eqb_refl, pushMemory_lastN.
  destruct (lastN_snoc_last 10 (getAgentMemory (role a) s)
              {| query := q;
                 mem_response :=
                   response (parseAgentResponse (default [] content) (role a));
                 timestamp := clock (clockReads (log_request prompt s));
                 mem_context := ctx |}) as (older & Holder); [lia|].
  exists older. eexists. exact Holder.
Qed.

Lemma runTasks_memory (cfg : CrewConfig) (q : jsstring) (ctx : Context)
    (pending : list Task) :
  forall (acc : list AgentResponse) (s : State) rs s',
    runTasks cfg q ctx pending acc s = (Ret rs, s') ->
    exists new,
      rs = acc ++ new
      /\ forall i t a r,
           pending !! i = Some t ->
           agents cfg !! task_agent t = Some a ->
           new !! i = Some r ->
           (forall j t' a', j <> i -> pending !! j = Some t' ->
              agents cfg !! task_agent t' = Some a' -> role a' <> role a) ->
           (confidence r = 0.85%Q
            /\ exists older stamp,
                 getAgentMemory (role a) s'
                 = older ++ [ {| query := q; mem_response := response r;
                                 timestamp := stamp; mem_context := ctx |} ])
           \/ (confidence r = 0.6%Q
               /\ getAgentMemory (role a) s' = getAgentMemory (role a) s).
Proof.
  induction pending as [|t0 rest IH]; intros acc s rs s'; cbn [runTasks].
  - unfold ret. intros E; injection E as <- <-. exists [].
    split; [now rewrite app_nil_r|]. intros i t a r Hi. discriminate Hi.
  - destruct (agents cfg !! task_agent t0) as [a0|] eqn:Ha0; [|discriminate].
    unfold bind.
    destruct (executeAgentTask a0 t0 q ctx acc s) as [[r0|] s1] eqn:Hexec;
      [|discriminate].
    intros Hrun.
    destruct (IH _ _ _ _ Hrun) as (new & -> & Hnew).
    exists (r0 :: new). split; [now rewrite <- app_assoc|].
    destruct (runTasks_frame cfg q ctx rest _ s1 _ s' Hrun)
      as (_ & _ & _ & _ & Hrest).
    destruct (executeAgentTask_frame a0 t0 q ctx acc s _ s1 Hexec)
      as (_ & _ & _ & _ & Hfirst).
    intros i t a r Hi Ha Hr Hdistinct.
    destruct i as [|i]; cbn in Hi, Hr.
    + injection Hi as <-. injection Hr as <-.
      rewrite Ha0 in Ha. injection Ha as <-.
      assert (Hkeep : getAgentMemory (role a0) s' = getAgentMemory (role a0) s1).
      { apply Hrest. intros t' a' Hin Ha'.
        apply list_elem_of_In, list_elem_of_lookup in Hin as (j & Hj).
        apply (Hdistinct (S j) t' a'); [lia|exact Hj|exact Ha']. }
      rewrite Hkeep.
      destruct (executeAgentTask_outcome a0 t0 q ctx acc s r0 s1 Hexec)
        as [Hok|[Hko Hm]]; [now left|].
      right. split; [exact Hko|]. unfold getAgentMemory. now rewrite Hm.
    + destruct (Hnew i t a r Hi Ha Hr) as [Hok|[Hko Hm]].
      * intros j t' a' Hj. apply (Hdistinct (S j) t' a'). lia.
      * now left.
      * right. split; [exact Hko|]. rewrite Hm. apply Hfirst.
        intros E. apply (Hdistinct 0%nat t0 a0); [lia|reflexivity|exact Ha0|].
        now symmetry.
Qed.

Lemma crewFor_roles_differ (g : GoalType) (i j : nat) (t t' : Task)
    (a a' : AgentConfig) :
  j <> i ->
  tasks (crewFor g) !! i = Some t ->
  tasks (crewFor g) !! j = Some t' ->
  agents (crewFor g) !! task_agent t = Some a ->
  agents (crewFor g) !! task_agent t' = Some a' ->
  role a' <> role a.
Proof.
  intros Hji Hi Hj Ha Ha'.
  destruct (Nat.lt_total j i) as [Hlt|[Heq|Hgt]]; [|contradiction|].
  - exact (crewFor_roles_distinct g i j t t' a a' Hlt Hi Hj Ha Ha').
  - intros E. symmetry in E. revert E.
    exact (crewFor_roles_distinct g j i t' t a' a Hgt Hj Hi Ha' Ha).
Qed.

(** X20. What a configured run of either crew remembers is what it
    returned: for every task whose call succeeded (the response has
    confidence 0.85), the last memory entry of the agent's role holds the
    query, the text of that very response and the context of the run; for
    every task whose call failed (confidence 0.6) the role's memory is what
    it was before the run. *)
Theorem memory_matches_results (g : GoalType) (q : jsstring) (ctx : Context)
    (s : State) :
  isConfigured (apiKey s) = true ->
  exists exec s',
    executeCrew g q ctx s = (Ret exec, s')
    /\ forall i t a r,
         tasks (crewFor g) !! i = Some t ->
         agents (crewFor g) !! task_agent t = Some a ->
         results exec !! i = Some r ->
         (confidence r = 0.85%Q
          /\ exists older stamp,
               getAgentMemory (role a) s'
               = older ++ [ {| query := q; mem_response := response r;
                               timestamp := stamp; mem_context := ctx |} ])
         \/ (confidence r = 0.6%Q
             /\ getAgentMemory (role a) s' = getAgentMemory (role a) s).
Proof.
  intros Hcfg.
  unfold executeCrew, executeCrewIn, bind, gets, ret, try_catch, now, modify.
  rewrite Hcfg. cbn [negb].
  match goal with
  | |- context [runTasks ?c ?qq ?x ?p ?r ?st] =>
      destruct (runTasks_returns c qq x p (crewFor_runnable g ctx) r st)
        as (rs & s1 & Hrun);
      destruct (runTasks_memory c qq x p r st rs s1 Hrun) as (new & -> & Hnew)
  end.
  rewrite Hrun. cbn [app] in *.
  destruct (coordinateAgentResponses_frame new q (goalTypeName g) s1)
    as (out & s2 & -> & _ & _ & _ & Hm2 & _ & _).
  eexists; eexists. split; [reflexivity|]. cbn [results].
  intros i t a r Hi Ha Hr.
  unfold getAgentMemory in *. cbn [agentMemory] in *. rewrite Hm2.
  apply (Hnew i t a r Hi Ha Hr).
  intros j t' a' Hj Hlook Ha'.
  exact (crewFor_roles_differ g i j t t' a a' Hj Hi Hlook Ha Ha').
Qed.

End Properties.

(** * Examples on the concrete host *)

(** Counterexample to C8 as first worded: with [{ targetSleepHours: 0 }]
    the unconfigured sleep crew returns texts none of which mentions the
    value passed, 0; the first response names the default 8 instead. *)
Lemma zero_target_not_mentioned :
  let exec := getFallbackCrewExecution sleep_tracking sleepQuery
                zeroTargetContext in
  executeCrew (host := downHost) sleep_tracking sleepQuery zeroTargetContext
    (newService []) = (Ret exec, newService [])
  /\ zeroTargetContext !! lit "targetSleepHours" = Some (JNumber 0%Z)
  /\ to_string (JNumber 0%Z) = lit "0"
  /\ mentions exec (lit "0") = false
  /\ map response (take 1 (results exec))
     = [ lit "Based on your sleep data, I can see you're targeting 8 hours of sleep. Your current patterns show room for optimization in sleep consistency and quality." ].
Proof. vm_compute. repeat split. Qed.

Lemma unconfigured_fallback_witness :
  exists exec,
    executeCrew (host := downHost) sleep_tracking sleepQuery sevenHoursContext
      (newService placeholderKey) = (Ret exec, newService placeholderKey)
    /\ executionTime exec = 500%Z
    /\ startsWith (fallbackHeader sleep_tracking) (finalOutput exec) = true
    /\ includes (fallbackHeader sleep_tracking) (finalOutput exec) = true
    /\ (sleep_tracking = sleep_tracking ->
        exists first second,
          results exec = [first; second]
          /\ response first
             = lit "Based on your sleep data, I can see you're targeting "
               ++ (if truthy (get sevenHoursContext (lit "targetSleepHours"))
                   then to_string (get sevenHoursContext (lit "targetSleepHours"))
                   else lit "8")
               ++ lit " hours of sleep. Your current patterns show room for optimization in sleep consistency and quality."
          /\ includes
               (lit "targeting "
                ++ (if truthy (get sevenHoursContext (lit "targetSleepHours"))
                    then to_string (get sevenHoursContext (lit "targetSleepHours"))
                    else lit "8")
                ++ lit " hours of sleep")
               (response first) = true).
Proof.
  apply (@unconfigured_fallback decimalNumbers downHost sleep_tracking sleepQuery
           sevenHoursContext (newService placeholderKey)).
  right; left; reflexivity.
Defined.

Lemma failed_call_keeps_memory_witness :
  exists s',
    executeAgentTask (host := downHost) sleepAnalyst sleepAnalystTask sleepQuery
      sevenHoursContext [] (newService liveKey)
    = (Ret (getFallbackAgentResponse (role sleepAnalyst) sleepQuery
              sevenHoursContext), s')
    /\ agentMemory s' = agentMemory (newService liveKey)
    /\ (forall r, getAgentMemory r s' = getAgentMemory r (newService liveKey))
    /\ sent s' = sent (newService liveKey)
                 ++ [match createAgentPrompt sleepAnalyst
                             sleepAnalystTask sleepQuery sevenHoursContext
                             (previousContextOf []) [] with
                     | Ret p => p
                     | Throw => []
                     end]
    /\ confidence (getFallbackAgentResponse (role sleepAnalyst) sleepQuery
                     sevenHoursContext) = 0.6%Q.
Proof.
  apply (@failed_call_keeps_memory decimalNumbers downHost sleepAnalyst sleepAnalystTask
           sleepQuery sevenHoursContext [] (newService liveKey)).
  - vm_compute. reflexivity.
  - reflexivity.
Defined.

(** Counterexample to C7 as first worded: on the sleep fallback responses
    the final message is not the header over the local combiner's message;
    the four pooled insights all appear in it, the fourth of which the
    local combiner leaves out. *)
Lemma fallback_output_differs_from_local_combiner :
  let results := getFallbackResponses sleep_tracking sleepQuery
                   sevenHoursContext in
  generateFallbackFinalOutput results sleep_tracking sleepQuery
  <> spec_fallbackFinalOutput results sleep_tracking
  /\ length (flatMap insights results) = 4%nat
  /\ includes (lit "Environment greatly impacts sleep quality")
       (generateFallbackFinalOutput results sleep_tracking sleepQuery) = true
  /\ includes (lit "Environment greatly impacts sleep quality")
       (combineLocally results) = false.
Proof.
  cbv zeta. split.
  - intros E. apply str_eqb_eq in E. vm_compute in E. discriminate.
  - vm_compute. repeat split.
Qed.

(** C3. The run that breaks the chaining of prompts: the service is
    configured and every completion comes back with an empty content, which
    [callOpenAI] returns as the empty string. The first two responses have
    an empty text; the prompt of the second task is then not the template
    filled with the texts of the earlier responses, it is the prompt of a
    first agent and holds the first-agent marker, although the first task has
    produced a response; the prompt of the third task, built from two empty
    texts joined by a blank line, holds no marker. *)
Lemma empty_first_response_keeps_marker :
  let run := executeCrew (host := emptyHost) sleep_tracking sleepQuery ∅
               (newService liveKey) in
  exists exec r1 r2 r3 p1 p2 p3 final,
    fst run = Ret exec
    /\ results exec = [r1; r2; r3]
    /\ sent (snd run) = [p1; p2; p3; final]
    /\ response r1 = []
    /\ tasks getSleepTrackingCrew !! 1%nat = Some sleepCoachTask
    /\ agents getSleepTrackingCrew !! task_agent sleepCoachTask = Some sleepCoach
    /\ spec_createAgentPrompt sleepCoach sleepCoachTask sleepQuery ∅
         [r1] [] <> Ret p2
    /\ Ret p2 = createAgentPrompt sleepCoach sleepCoachTask
                  sleepQuery ∅ [] []
    /\ includes firstAgentMarker p2 = true
    /\ response r2 = []
    /\ Ret p3 = createAgentPrompt circadianSpecialist circadianSpecialistTask
                  sleepQuery ∅ [newline; newline] []
    /\ Ret p3 = spec_createAgentPrompt circadianSpecialist
                  circadianSpecialistTask sleepQuery ∅ [r1; r2] []
    /\ includes firstAgentMarker p1 = true
    /\ includes firstAgentMarker p3 = false.
Proof.
  intros run. vm_compute in run. subst run.
  do 8 eexists. cbn [fst snd].
  split; [reflexivity|]. split; [reflexivity|]. split; [reflexivity|].
  split; [reflexivity|]. split; [reflexivity|].
  split; [vm_compute; reflexivity|].
  split.
  - intros E. vm_compute in E. discriminate E.
  - repeat split; vm_compute; reflexivity.
Qed.


(** Counterexample to C5 as first worded: a [Recommendations:] heading
    without the bold markers is not recognised, and three bulleted lines
    followed by another section's bullets are not extracted alone. *)
Lemma plain_heading_is_not_recognised :
  split newline plainHeadingText
  = [ lit "Recommendations:"; lit "- Keep a fixed bedtime";
      lit "- Dim the lights at nine"; lit "- Skip the late coffee" ]
  /\ recommendations (parseAgentResponse plainHeadingText (role sleepCoach)) = []
  /\ recommendations (parseAgentResponse headingsBackToBackText (role sleepCoach))
     = [ lit "Keep a fixed bedtime"; lit "Dim the lights at nine";
         lit "Skip the late coffee"; lit "You go to bed late on weekends" ].
Proof. vm_compute. repeat split. Qed.

Lemma recommendations_after_heading_witness :
  (recommendations (parseAgentResponse boldHeadingText (role sleepCoach))
   = [ trim (lit " Keep a fixed bedtime");
       trim (lit " Dim the lights at nine");
       trim (lit "   Skip the late coffee  ") ]
   /\ response (parseAgentResponse boldHeadingText (role sleepCoach))
      = boldHeadingText)
  /\ (recommendations (parseAgentResponse noStructureText (role sleepCoach)) = []
      /\ response (parseAgentResponse noStructureText (role sleepCoach))
         = noStructureText).
Proof.
  split.
  - apply (proj1 (recommendations_after_heading boldHeadingText (role sleepCoach)
                    [lit "Here is my advice."] [[]; lit "Sleep well!"]
                    (lit "**Recommendations**:")
                    hyphen bullet hyphen
                    (lit " Keep a fixed bedtime")
                    (lit " Dim the lights at nine")
                    (lit "   Skip the late coffee  "))).
    + vm_compute. reflexivity.
    + vm_compute. reflexivity.
    + repeat (apply List.Forall_cons || apply List.Forall_nil); vm_compute; reflexivity.
    + repeat (apply List.Forall_cons || apply List.Forall_nil); auto.
    + repeat (apply List.Forall_cons || apply List.Forall_nil); vm_compute; reflexivity.
  - apply (proj2 (recommendations_after_heading noStructureText (role sleepCoach)
                    [] [] [] hyphen hyphen hyphen [] [] [])).
    vm_compute. reflexivity.
Defined.

(** Counterexample to C6 as first worded: lines that begin with [*] are
    skipped, so of three lines under the heading only the one with [-] is
    collected. *)
Lemma asterisk_bullets_are_skipped :
  split newline asteriskBulletsText
  = [ lit "**Recommendations**:"; lit "* Keep a fixed bedtime";
      lit "- Dim the lights at nine"; lit "* Skip the late coffee" ]
  /\ recommendations (parseAgentResponse asteriskBulletsText (role sleepCoach))
     = [ lit "Dim the lights at nine" ]
  /\ isBulleted (lit "* Keep a fixed bedtime") = false.
Proof. vm_compute. repeat split. Qed.

Lemma bullet_markers_collected_witness :
  responseField Insights
    (parseAgentResponse headingsBackToBackText (role sleepCoach))
  = map stripMarker
      (List.filter isBulleted
         (take (windowOf Insights)
            (List.filter nonblank [lit "- You go to bed late on weekends"]))).
Proof.
  apply (proj1 (bullet_markers_collected Insights headingsBackToBackText
                  (role sleepCoach)
                  [ lit "**Recommendations**:"; lit "- Keep a fixed bedtime";
                    lit "- Dim the lights at nine";
                    lit "- Skip the late coffee" ]
                  [ lit "- You go to bed late on weekends" ]
                  (lit "**Insights**:"))).
  - vm_compute. reflexivity.
  - vm_compute. reflexivity.
  - repeat (apply List.Forall_cons || apply List.Forall_nil); vm_compute; reflexivity.
Defined.

(** The cap at work: after twelve successful executions the coach's memory
    holds the entries of queries 3 to 12, as the parser saw them. *)
Example memory_keeps_the_last_ten :
  map query
    (getAgentMemory (role sleepCoach)
       (runCalls (host := okHost) twelveCalls (newService liveKey)))
  = map show_nat (seq 3 10)
  /\ map mem_response
       (getAgentMemory (role sleepCoach)
          (runCalls (host := okHost) twelveCalls (newService liveKey)))
     = repeat (lit "ok") 10.
Proof. vm_compute. split; reflexivity. Qed.

(** A throw inside the task loop: the three defined agents run and write
    their memory, the fourth task throws, and the whole-crew fallback is
    returned with its two responses. *)
Example broken_registry_falls_back :
  let run := executeCrewIn (host := okHost) brokenRegistry sleep_tracking
               sleepQuery sevenHoursContext (newService liveKey) in
  fst run = Ret (getFallbackCrewExecution sleep_tracking sleepQuery
                   sevenHoursContext)
  /\ length (sent (snd run)) = 3%nat
  /\ length (getAgentMemory (role sleepAnalyst) (snd run)) = 1%nat.
Proof. vm_compute. repeat split. Qed.

(** With every call failing in the steps domain, each response is the
    role's fallback of confidence 0.6 and the final message is the local
    combiner's. *)
Example all_calls_fail :
  let run := executeCrew (host := downHost) daily_steps sleepQuery ∅
               (newService liveKey) in
  exists exec,
    fst run = Ret exec
    /\ map confidence (results exec) = [0.6%Q; 0.6%Q; 0.6%Q]
    /\ finalOutput exec = combineLocally (results exec)
    /\ agentMemory (snd run) = ∅.
Proof. eexists. vm_compute. repeat split. Qed.

(** Where the target is named: with [{ targetSleepHours: 7 }] the first
    fallback response says 7, the final message does not. *)
Example target_hours_are_in_the_first_response :
  let exec := getFallbackCrewExecution sleep_tracking sleepQuery
                sevenHoursContext in
  map (fun r => includes (lit "targeting 7 hours") (response r)) (results exec)
  = [true; false]
  /\ includes (lit "7") (finalOutput exec) = false.
Proof. vm_compute. split; reflexivity. Qed.

(** * Instances of the further properties *)

Lemma other_roles_keep_their_memory_witness :
  getAgentMemory (role sleepCoach)
    (snd (executeCrewIn (host := okHost) crewFor daily_steps sleepQuery
            sevenHoursContext seasonedService))
  = getAgentMemory (role sleepCoach) seasonedService
  /\ length (getAgentMemory (role sleepCoach) seasonedService) = 10%nat.
Proof.
  split; [|vm_compute; reflexivity].
  apply (@other_roles_keep_their_memory decimalNumbers okHost crewFor
           daily_steps sleepQuery sevenHoursContext seasonedService).
  intros t a [<-|[<-|[<-|[]]]] Ha; vm_compute in Ha; injection Ha as <-;
    intros E; vm_compute in E; discriminate E.
Defined.

Lemma successful_call_appends_witness :
  exists s',
    executeAgentTask (host := okHost) sleepCoach sleepCoachTask sleepQuery
      sevenHoursContext [] seasonedService
    = (Ret (parseAgentResponse (lit "ok") (role sleepCoach)), s')
    /\ (exists older,
          getAgentMemory (role sleepCoach) s'
          = older ++ [ {| query := sleepQuery; mem_response := lit "ok";
                          timestamp := 12000%Z;
                          mem_context := sevenHoursContext |} ])
    /\ length (getAgentMemory (role sleepCoach) s') = 10%nat.
Proof.
  destruct (@successful_call_appends decimalNumbers okHost sleepCoach
              sleepCoachTask sleepQuery sevenHoursContext [] seasonedService
              (match createAgentPrompt sleepCoach sleepCoachTask sleepQuery
                       sevenHoursContext (previousContextOf [])
                       (getAgentMemory (role sleepCoach) seasonedService) with
               | Ret p => p
               | Throw => []
               end)
              (Some (lit "ok")))
    as (s' & Hrun & Hmem & Hlast & _).
  - vm_compute. reflexivity.
  - reflexivity.
  - exists s'. split; [exact Hrun|]. split; [exact Hlast|].
    rewrite Hmem. vm_compute. reflexivity.
Defined.

Lemma final_output_source_witness :
  exists exec s',
    executeCrew (host := emptyHost) sleep_tracking sleepQuery sevenHoursContext
      (newService liveKey) = (Ret exec, s')
    /\ finalOutput exec = [].
Proof.
  destruct (@final_output_source decimalNumbers emptyHost sleep_tracking
              sleepQuery sevenHoursContext (newService liveKey))
    as (exec & s' & Hrun & Hout & _).
  - reflexivity.
  - exists exec, s'. split; [exact Hrun|]. rewrite Hout. reflexivity.
Defined.

Lemma all_failing_endpoint_witness :
  exists exec s',
    executeCrew (host := downHost) daily_steps sleepQuery sevenHoursContext
      (newService liveKey) = (Ret exec, s')
    /\ finalOutput exec = combineLocally (results exec)
    /\ agentMemory s' = agentMemory (newService liveKey)
    /\ length (sent s') = 4%nat.
Proof.
  destruct (@all_failing_endpoint decimalNumbers downHost daily_steps
              sleepQuery sevenHoursContext (newService liveKey))
    as (exec & s' & Hrun & _ & Hout & Hmem & Hsent).
  - reflexivity.
  - intros n p. reflexivity.
  - exists exec, s'. repeat split; assumption.
Defined.

Lemma prompt_reads_last_three_entries_witness :
  createAgentPrompt sleepCoach sleepCoachTask sleepQuery sevenHoursContext []
    (getAgentMemory (role sleepCoach) seasonedService)
  = createAgentPrompt sleepCoach sleepCoachTask sleepQuery sevenHoursContext []
      (lastN 3 (getAgentMemory (role sleepCoach) seasonedService)).
Proof.
  apply (proj1 (@prompt_reads_last_three_entries decimalNumbers sleepCoach
                  sleepCoachTask sleepQuery sevenHoursContext []
                  (getAgentMemory (role sleepCoach) seasonedService)
                  (lastN 3 (getAgentMemory (role sleepCoach) seasonedService)))).
  vm_compute. reflexivity.
Defined.

Lemma context_block_throws_iff_witness :
  formatContextForAgent
    ({[ lit "preferredWalkingTimes" := JString (lit "morning") ]} : Context)
    (lit "movement coach") = Throw
  /\ exists profile,
       formatContextForAgent sevenHoursContext (lit "sleep coach") = Ret profile
       /\ startsWith ([newline] ++ lit "Sleep Profile:") profile = true.
Proof.
  split.
  - apply (proj1 (@context_block_throws_iff decimalNumbers
                    {[ lit "preferredWalkingTimes" := JString (lit "morning") ]}
                    (lit "movement coach"))).
    vm_compute. repeat split.
  - apply (proj2 (@context_block_throws_iff decimalNumbers sevenHoursContext
                    (lit "sleep coach"))).
    reflexivity.
Defined.

Lemma configured_run_ignores_context_witness :
  fst (executeCrew (host := okHost) sleep_tracking sleepQuery zeroTargetContext
         seasonedService)
  = fst (executeCrew (host := okHost) sleep_tracking sleepQuery
           sevenHoursContext seasonedService)
  /\ sent (snd (executeCrew (host := okHost) sleep_tracking sleepQuery
                  zeroTargetContext seasonedService))
     = sent (snd (executeCrew (host := okHost) sleep_tracking sleepQuery
                    sevenHoursContext seasonedService)).
Proof.
  destruct (@configured_run_ignores_context decimalNumbers okHost
              sleep_tracking sleepQuery zeroTargetContext sevenHoursContext
              seasonedService seasonedService) as (Hexec & Hsent & _).
  - repeat split.
  - reflexivity.
  - split; assumption.
Defined.

Lemma indented_bullet_keeps_marker_witness :
  stripMarker indentedBullet = lit "- Keep a fixed bedtime".
Proof.
  destruct (indented_bullet_keeps_marker space (lit " - Keep a fixed bedtime"))
    as (Hstrip & _).
  - reflexivity.
  - reflexivity.
  - change indentedBullet with (space :: lit " - Keep a fixed bedtime").
    rewrite Hstrip. vm_compute. reflexivity.
Defined.

Lemma fallback_reads_only_the_targets_witness :
  getFallbackCrewExecution sleep_tracking sleepQuery sevenHoursContext
  = getFallbackCrewExecution sleep_tracking (lit "Another question")
      (<[ lit "targetBedtime" := JString (lit "22:30") ]> sevenHoursContext).
Proof.
  apply (proj1 (proj2 (@fallback_reads_only_the_targets decimalNumbers))).
  vm_compute. reflexivity.
Defined.

Lemma elapsed_time_is_not_negative_witness :
  exists exec s',
    executeCrewIn (host := okHost) crewFor sleep_tracking sleepQuery
      sevenHoursContext (newService liveKey) = (Ret exec, s')
    /\ (0 <= executionTime exec)%Z.
Proof.
  destruct (@elapsed_time_is_not_negative decimalNumbers okHost crewFor
              sleep_tracking sleepQuery sevenHoursContext (newService liveKey))
    as (exec & s' & Hrun & Hpos & _).
  - intros m n Hmn. cbn. lia.
  - exists exec, s'. split; assumption.
Defined.

Lemma memory_matches_results_witness :
  exists exec s',
    executeCrew (host := okHost) sleep_tracking sleepQuery sevenHoursContext
      (newService liveKey) = (Ret exec, s')
    /\ forall r,
         results exec !! 1%nat = Some r ->
         (confidence r = 0.85%Q
          /\ exists older stamp,
               getAgentMemory (role sleepCoach) s'
               = older ++ [ {| query := sleepQuery; mem_response := response r;
                               timestamp := stamp;
                               mem_context := sevenHoursContext |} ])
         \/ (confidence r = 0.6%Q
             /\ getAgentMemory (role sleepCoach) s'
                = getAgentMemory (role sleepCoach) (newService liveKey)).
Proof.
  destruct (@memory_matches_results decimalNumbers okHost sleep_tracking
              sleepQuery sevenHoursContext (newService liveKey))
    as (exec & s' & Hrun & Hall).
  - reflexivity.
  - exists exec, s'. split; [exact Hrun|]. intros r Hr.
    apply (Hall 1%nat sleepCoachTask sleepCoach r); [reflexivity| |exact Hr].
    vm_compute. reflexivity.
Defined.

(** A heading repeated word for word: the list is read after its first
    occurrence, so the bullets of both occurrences are collected. *)
Example repeated_heading_reads_after_the_first :
  recommendations
    (parseAgentResponse
       (unlines [ lit "**Recommendations**:"; lit "- Keep a fixed bedtime";
                  lit "**Recommendations**:"; lit "- Dim the lights at nine" ])
       (role sleepCoach))
  = [ lit "Keep a fixed bedtime"; lit "Dim the lights at nine" ].
Proof. vm_compute. reflexivity. Qed.
